(** * Product API with Redis caching: a model of [main.py]

    The service keeps its products in the in-memory table [PRODUCTS_DB] and
    puts a Redis cache in front of it (cache-aside).  [get_product] reads
    through the cache, [update_product] writes the table and queues
    [invalidate_cache] as a background task.

    The model is a shallow embedding.  Every coroutine of [main.py] becomes a
    computation in a small state-and-exception monad over a [World] that
    holds the table, the global [redis] handle, the key space of the Redis
    server with its clock, the queue of background tasks and a trace of the
    accesses made so far.  An [await] is a sequencing point; one call runs
    without another call interleaved. *)

From Stdlib Require Import ZArith Ascii String DecimalString DecimalZ.
From stdpp Require Import gmap strings list.

Local Open Scope string_scope.
Local Open Scope list_scope.
Local Open Scope Z_scope.

(** ** Decimal rendering of an [int]

    [f"{product_id}"] renders a Python [int] in base ten, with a leading
    minus sign for a negative number and no leading zeros. *)

Definition str (n : Z) : string := NilZero.string_of_int (Z.to_int n).

(** Reading a decimal numeral back, as Python's [int(s)] does on the output
    of [str]. *)
Definition int (s : string) : option Z := Z.of_int <$> NilZero.int_of_string s.

Definition CACHE_TTL : Z := 60.

Definition _product_cache_key (product_id : Z) : string :=
  "product:" +:+ str product_id.

Section Service.

(** The type of Python [float] values.  The service stores, copies and
    returns prices and never computes with them, so they stay abstract. *)
Context {pyfloat : Type}.

(** [class Product(BaseModel)].  The rows of [PRODUCTS_DB] are dicts with
    exactly the keys ["id"], ["name"] and ["price"]; [update_product]
    preserves that shape, so a row and the [Product] built from it by
    [Product( **row )] carry the same three fields. *)
Record Product : Type := mkProduct {
  id : Z;
  name : string;
  price : pyfloat
}.

(** [class ProductUpdate(BaseModel)]: both fields default to [None]. *)
Record ProductUpdate : Type := mkProductUpdate {
  update_name : option string;
  update_price : option pyfloat
}.

(** What the service asks of the libraries it calls: [json.dumps] on a row
    of the table, and [Product( **json.loads(s) )] on a cached string, which
    is [None] when [json.loads] or the validation of [Product] raises. *)
Class Json : Type := {
  json_dumps : Product -> string;
  loads_Product : string -> option Product
}.
Context `{!Json}.

(** ** The world *)

(** An access made by the service: to the table, to the Redis server, or to
    the queue of background tasks.  A Redis command is recorded when it is
    issued, whether or not it then fails. *)
Inductive event : Type :=
  | DbGet (product_id : Z)
  | DbPut (product_id : Z) (row : Product)
  | RedisConnect
  | RedisPing
  | RedisGet (key : string)
  | RedisSet (key value : string) (ex : Z)
  | RedisDelete (key : string)
  | RedisClose
  | AddTask (product_id : Z).

Record World : Type := mkWorld {
  (** the module-level table *)
  PRODUCTS_DB : gmap Z Product;
  (** the module-level handle: [true] when [redis] is not [None] *)
  redis : bool;
  (** the Redis server: each key with its value and the instant it expires *)
  keyspace : gmap string (string * Z);
  (** the clock of the Redis server, in seconds *)
  now : Z;
  (** what the next Redis commands will do: [true] makes the command raise
      without effect on the server; past the end every command succeeds *)
  faults : list bool;
  (** the queued [invalidate_cache(product_id)] tasks, oldest first *)
  background_tasks : list Z;
  (** every access so far, oldest first *)
  trace : list event
}.

Definition with_db (db : gmap Z Product) (w : World) : World :=
  mkWorld db (redis w) (keyspace w) (now w) (faults w) (background_tasks w) (trace w).
Definition with_redis (h : bool) (w : World) : World :=
  mkWorld (PRODUCTS_DB w) h (keyspace w) (now w) (faults w) (background_tasks w) (trace w).
Definition with_keyspace (ks : gmap string (string * Z)) (w : World) : World :=
  mkWorld (PRODUCTS_DB w) (redis w) ks (now w) (faults w) (background_tasks w) (trace w).
Definition with_now (t : Z) (w : World) : World :=
  mkWorld (PRODUCTS_DB w) (redis w) (keyspace w) t (faults w) (background_tasks w) (trace w).
Definition with_faults (fs : list bool) (w : World) : World :=
  mkWorld (PRODUCTS_DB w) (redis w) (keyspace w) (now w) fs (background_tasks w) (trace w).
Definition with_tasks (ts : list Z) (w : World) : World :=
  mkWorld (PRODUCTS_DB w) (redis w) (keyspace w) (now w) (faults w) ts (trace w).
Definition with_trace (tr : list event) (w : World) : World :=
  mkWorld (PRODUCTS_DB w) (redis w) (keyspace w) (now w) (faults w) (background_tasks w) tr.

(** ** Computations *)

Inductive exn : Type :=
  | HTTPException (status_code : Z)
  | RedisError
  | ValueError.

Inductive outcome (A : Type) : Type :=
  | Returns (a : A)
  | Raises (e : exn).
Arguments Returns {A} a.
Arguments Raises {A} e.

(** A coroutine: it ends by returning or raising, and the world it leaves
    behind survives in both cases. *)
Definition io (A : Type) : Type := World -> outcome A * World.

Definition ret {A} (a : A) : io A := fun w => (Returns a, w).
Definition raise {A} (e : exn) : io A := fun w => (Raises e, w).
Definition bind {A B} (m : io A) (k : A -> io B) : io B :=
  fun w => match m w with
           | (Returns a, w') => k a w'
           | (Raises e, w') => (Raises e, w')
           end.
(** [try: m / except Exception: h] *)
Definition try_except {A} (m : io A) (h : io A) : io A :=
  fun w => match m w with
           | (Returns a, w') => (Returns a, w')
           | (Raises _, w') => h w'
           end.

#[local] Instance io_ret : MRet io := @ret.
#[local] Instance io_bind : MBind io := fun A B k m => bind m k.

(** Reading from and writing to the world. *)
Definition gets {A} (f : World -> A) : io A := fun w => (Returns (f w), w).
Definition modify (f : World -> World) : io unit := fun w => (Returns tt, f w).

Definition emit (e : event) : io unit :=
  modify (fun w => with_trace (trace w ++ [e]) w).

(** Whether the next Redis command raises. *)
Definition fails (w : World) : bool := default false (head (faults w)).

(** The next entry of the fault tape is read and used up. *)
Definition next_fault : io bool :=
  failed ← gets fails;
  modify (fun w => with_faults (tail (faults w)) w);;
  ret failed.

(** A command sent to the Redis server: it is recorded, then it raises, or
    it runs on the server. *)
Definition redis_command {A} (e : event) (run : io A) : io A :=
  emit e;;
  failed ← next_fault;
  if failed : bool then raise RedisError else run.

(** What the server holds under [key] at its current time. *)
Definition live (w : World) (key : string) : option string :=
  match keyspace w !! key with
  | Some (value, expires) => if decide (now w < expires) then Some value else None
  | None => None
  end.

Definition redis_from_url : io unit :=
  redis_command RedisConnect (modify (with_redis true)).
Definition redis_ping : io unit :=
  redis_command RedisPing (ret tt).
Definition redis_get (key : string) : io (option string) :=
  redis_command (RedisGet key) (gets (fun w => live w key)).
Definition redis_set (key value : string) (ex : Z) : io unit :=
  redis_command (RedisSet key value ex)
    (modify (fun w => with_keyspace (<[key := (value, now w + ex)]> (keyspace w)) w)).
Definition redis_delete (key : string) : io unit :=
  redis_command (RedisDelete key)
    (modify (fun w => with_keyspace (delete key (keyspace w)) w)).
Definition redis_close : io unit :=
  redis_command RedisClose (ret tt).

(** ** The coroutines of [main.py] *)

Definition on_startup : io unit :=
  try_except
    (redis_from_url;; redis_ping)
    (modify (with_redis false)).

Definition on_shutdown : io unit :=
  handle ← gets redis;
  if handle : bool then redis_close else ret tt.

(** [PRODUCTS_DB.get(product_id)], after a sleep that only takes time. *)
Definition get_product_from_db (product_id : Z) : io (option Product) :=
  emit (DbGet product_id);;
  gets (fun w => PRODUCTS_DB w !! product_id).

(** [PRODUCTS_DB[product_id] = row] *)
Definition db_put (product_id : Z) (row : Product) : io unit :=
  emit (DbPut product_id row);;
  modify (fun w => with_db (<[product_id := row]> (PRODUCTS_DB w)) w).

(** The result is [true] for the handle and [false] for [None]. *)
Definition get_redis_connection : io bool :=
  handle ← gets redis;
  if handle : bool then try_except (redis_ping;; ret true) (ret false)
  else ret false.

(** The truth value of a [str]. *)
Definition truthy (s : string) : bool :=
  match s with EmptyString => false | String _ _ => true end.

(** [Product( **json.loads(cached) )] *)
Definition parse_cached (cached : string) : io Product :=
  match loads_Product cached with
  | Some p => ret p
  | None => raise ValueError
  end.

(** The first [try] of [get_product]: [Some p] stands for its [return]. *)
Definition try_cache (cache_key : string) : io (option Product) :=
  try_except
    (cached ← redis_get cache_key;
     match cached with
     | Some s => if truthy s then p ← parse_cached s; ret (Some p)
                 else ret None
     | None => ret None
     end)
    (ret None).

Definition get_product (product_id : Z) : io Product :=
  let cache_key := _product_cache_key product_id in
  redis_conn ← get_redis_connection;
  hit ← (if redis_conn : bool then try_cache cache_key else ret None);
  match hit with
  | Some p => ret p
  | None =>
      prod ← get_product_from_db product_id;
      match prod with
      | None => raise (HTTPException 404)
      | Some prod =>
          (if redis_conn : bool
           then try_except (redis_set cache_key (json_dumps prod) CACHE_TTL) (ret tt)
           else ret tt);;
          ret prod
      end
  end.

(** [updated = existing.copy()] followed by the two assignments. *)
Definition apply_update (existing : Product) (update : ProductUpdate) : Product :=
  let updated := existing in
  let updated :=
    match update_name update with
    | Some n => mkProduct (id updated) n (price updated)
    | None => updated
    end in
  let updated :=
    match update_price update with
    | Some p => mkProduct (id updated) (name updated) p
    | None => updated
    end in
  updated.

Definition add_task (product_id : Z) : io unit :=
  emit (AddTask product_id);;
  modify (fun w => with_tasks (background_tasks w ++ [product_id]) w).

Definition update_product (product_id : Z) (update : ProductUpdate) : io Product :=
  existing ← get_product_from_db product_id;
  match existing with
  | None => raise (HTTPException 404)
  | Some existing =>
      let updated := apply_update existing update in
      db_put product_id updated;;
      add_task product_id;;
      ret updated
  end.

Definition invalidate_cache (product_id : Z) : io unit :=
  redis_conn ← get_redis_connection;
  if redis_conn : bool
  then try_except (redis_delete (_product_cache_key product_id)) (ret tt)
  else ret tt.

(** ** Notions used to state the properties *)

(** The world once a Redis command has been issued and its fate read. *)
Definition sent (e : event) (w : World) : World :=
  with_faults (tail (faults w)) (with_trace (trace w ++ [e]) w).

(** Whether the [n]-th Redis command from now on raises. *)
Definition fault (w : World) (n : nat) : bool := default false (faults w !! n).

(** What [get_product] finds in the cache: the handle is there, [ping] and
    [get] go through, and the server holds a live, non-empty string under
    the key that reads back as a product. *)
Definition cache_hit (w : World) (product_id : Z) : option Product :=
  if redis w && negb (fault w 0) && negb (fault w 1) then
    s ← live w (_product_cache_key product_id);
    if truthy s then loads_Product s else None
  else None.

(** Every way for the cache to give nothing to [get_product]. *)
Definition cache_miss (w : World) (product_id : Z) : Prop :=
  redis w = false
  ∨ fault w 0 = true
  ∨ fault w 1 = true
  ∨ live w (_product_cache_key product_id) = None
  ∨ live w (_product_cache_key product_id) = Some ""
  ∨ ∃ s, live w (_product_cache_key product_id) = Some s ∧ loads_Product s = None.

(** What the table alone answers. *)
Definition from_db (w : World) (product_id : Z) : outcome Product :=
  match PRODUCTS_DB w !! product_id with
  | Some prod => Returns prod
  | None => Raises (HTTPException 404)
  end.

(** The events that read or write the table. *)
Definition is_db_access (e : event) : bool :=
  match e with
  | DbGet _ | DbPut _ _ => true
  | _ => false
  end.

(** The key a Redis command works on. *)
Definition redis_key (e : event) : option string :=
  match e with
  | RedisGet key | RedisSet key _ _ | RedisDelete key => Some key
  | _ => None
  end.

(** The lifetime a Redis command gives to what it writes. *)
Definition redis_ex (e : event) : option Z :=
  match e with
  | RedisSet _ _ ex => Some ex
  | _ => None
  end.

(** The accesses made between [w] and the later [w']. *)
Definition emitted (w w' : World) : list event :=
  drop (length (trace w)) (trace w').

(** The ways the cache layer can fail during [get_product]: no handle was
    left by [on_startup], [ping] raises, [get] raises, the string under the
    key does not read back as a product, or the cache gave nothing and
    [set] raises. *)
Inductive cache_failure (w : World) (product_id : Z) : Prop :=
  | no_connection :
      redis w = false → cache_failure w product_id
  | ping_raises :
      redis w = true → fault w 0 = true → cache_failure w product_id
  | get_raises :
      redis w = true → fault w 0 = false → fault w 1 = true →
      cache_failure w product_id
  | payload_unreadable (s : string) :
      redis w = true → fault w 0 = false → fault w 1 = false →
      live w (_product_cache_key product_id) = Some s →
      loads_Product s = None →
      cache_failure w product_id
  | set_raises :
      redis w = true → fault w 0 = false → fault w 1 = false →
      cache_hit w product_id = None → fault w 2 = true →
      cache_failure w product_id.

(** [get_product] answers with the row the table holds now. *)
Definition fetch_is_current (w : World) (product_id : Z) : Prop :=
  ∀ prod, PRODUCTS_DB w !! product_id = Some prod →
    (get_product product_id w).1 = Returns prod.

(** [get_product] answers 404 for an id the table does not hold. *)
Definition fetch_absent_is_404 (w : World) (product_id : Z) : Prop :=
  PRODUCTS_DB w !! product_id = None →
  (get_product product_id w).1 = Raises (HTTPException 404).

(** The events that are commands to the Redis server. *)
Definition is_redis_command (e : event) : bool :=
  match e with
  | RedisConnect | RedisPing | RedisGet _ | RedisSet _ _ _ | RedisDelete _
  | RedisClose => true
  | _ => false
  end.

(** One update that does what [first] followed by [second] does: a field
    takes the value of [second] when it provides one, else that of
    [first]. *)
Definition merge_update (first second : ProductUpdate) : ProductUpdate :=
  mkProductUpdate
    (match update_name second with Some n => Some n | None => update_name first end)
    (match update_price second with Some p => Some p | None => update_price first end).

(** Every row of the table carries, as its ["id"], the key it is stored
    under, as the rows [main.py] starts with do. *)
Definition rows_keyed (db : gmap Z Product) : Prop :=
  ∀ k row, db !! k = Some row → id row = k.

(** ** Runs of the service

    What can happen to the process once it is loaded: the startup hook, a
    request to one of the two endpoints, a queued background task that gets
    to run, time that passes on the Redis server, and the network that
    settles what the coming Redis commands will do. *)

Inductive action : Type :=
  | Startup
  | Fetch (product_id : Z)
  | Update (product_id : Z) (update : ProductUpdate)
  | RunTask (n : nat)
  | Tick (seconds : nat)
  | Network (fs : list bool).

(** The [n]-th queued task leaves the queue and runs. *)
Definition run_task (n : nat) : io unit :=
  tasks ← gets background_tasks;
  match tasks !! n with
  | Some product_id =>
      modify (with_tasks (delete n tasks));;
      invalidate_cache product_id
  | None => ret tt
  end.

Definition exec (w : World) (a : action) : World :=
  match a with
  | Startup => (on_startup w).2
  | Fetch product_id => (get_product product_id w).2
  | Update product_id update => (update_product product_id update w).2
  | RunTask n => (run_task n w).2
  | Tick seconds => with_now (now w + Z.of_nat seconds) w
  | Network fs => with_faults fs w
  end.

Definition run (w : World) (acts : list action) : World := foldl exec w acts.

(** The process right after the module is loaded, over a Redis server that
    holds nothing: [redis] is [None], no task is queued. *)
Definition boot (db : gmap Z Product) : World :=
  mkWorld db false ∅ 0 [] [] [].

End Service.

Arguments Product : clear implicits.
Arguments ProductUpdate : clear implicits.
Arguments Json : clear implicits.
Arguments event : clear implicits.
Arguments World : clear implicits.
Arguments io : clear implicits.
Arguments action : clear implicits.
Arguments Returns {A} a.
Arguments Raises {A} e.

(** ** A concrete instance

    Prices are whole numbers here, and a row is cached as its three fields
    separated by commas, the name last. *)
Module Demo.

Definition dumps (p : Product Z) : string :=
  str (id p) +:+ "," +:+ str (price p) +:+ "," +:+ name p.

(** [s] cut at its first comma. *)
Fixpoint cut (s : string) : option (string * string) :=
  match s with
  | EmptyString => None
  | String c s' =>
      if Ascii.eqb c ","%char then Some (EmptyString, s')
      else '(a, b) ← cut s'; Some (String c a, b)
  end.

Definition loads (s : string) : option (Product Z) :=
  '(a, s') ← cut s;
  '(b, n) ← cut s';
  i ← int a;
  p ← int b;
  Some (mkProduct i n p).

(** The table [main.py] starts with. *)
Definition PRODUCTS_DB_0 : gmap Z (Product Z) :=
  <[1 := mkProduct 1 "Laptop" 1000]>
  (<[2 := mkProduct 2 "Smartphone" 500]>
  (<[3 := mkProduct 3 "Headphones" 100]> ∅)).

#[export] Instance json : Json Z := {| json_dumps := dumps; loads_Product := loads |}.

Definition fetch : Z -> io Z (Product Z) := get_product.
Definition update : Z -> ProductUpdate Z -> io Z (Product Z) := update_product.
Definition go : World Z -> list (action Z) -> World Z := run.

(** Up and running over an empty cache. *)
Definition started : World Z := go (boot PRODUCTS_DB_0) [Startup].

(** Product 1 was fetched, then its price was changed, and the queued
    invalidation has not run yet. *)
Definition stale : World Z :=
  go started [Fetch 1; Update 1 (mkProductUpdate None (Some 1200))].

(** A Redis server that holds a product the table never had. *)
Definition haunted : World Z :=
  mkWorld PRODUCTS_DB_0 true {[ "product:99" := ("99,1,Ghost", 60) ]} 0 [] [] [].

(** A Redis server that holds something that is no product. *)
Definition garbled : World Z :=
  mkWorld PRODUCTS_DB_0 true {[ "product:1" := ("not a product", 60) ]} 0 [] [] [].

End Demo.

(** ** Facts about keys *)

Lemma int_str (n : Z) : int (str n) = Some n.
Proof.
  unfold int, str. rewrite NilZero.isi.
  - simpl. by rewrite DecimalZ.of_to.
  - destruct n as [|p|p]; simpl; [done| |done].
    intros [= Hp]. by apply (DecimalPos.Unsigned.to_uint_nonnil p).
  - destruct n as [|p|p]; simpl; [done|done|].
    intros [= Hp]. by apply (DecimalPos.Unsigned.to_uint_nonnil p).
Qed.

Lemma str_inj (m n : Z) : str m = str n → m = n.
Proof.
  intros Heq. assert (int (str m) = int (str n)) as H by by rewrite Heq.
  rewrite !int_str in H. by injection H.
Qed.

Lemma _product_cache_key_inj (m n : Z) :
  _product_cache_key m = _product_cache_key n → m = n.
Proof. unfold _product_cache_key. intros [= H]. by apply str_inj. Qed.

Example _product_cache_key_1 : _product_cache_key 1 = "product:1".
Proof. reflexivity. Qed.

Example _product_cache_key_1000 : _product_cache_key 1000 = "product:1000".
Proof. reflexivity. Qed.

Example _product_cache_key_neg : _product_cache_key (-42) = "product:-42".
Proof. reflexivity. Qed.

Example _product_cache_key_0 : _product_cache_key 0 = "product:0".
Proof. reflexivity. Qed.

Section Facts.

Context {pyfloat : Type} `{!Json pyfloat}.

#[local] Abbreviation World := (World pyfloat).
#[local] Abbreviation io := (io pyfloat).

(** *** The building blocks, in closed form *)

Ltac io_red :=
  unfold mbind, mret, io_bind, io_ret, bind, ret, raise, gets, modify, emit,
    next_fault, try_except; simpl.

Lemma redis_command_eq {A} (e : event pyfloat) (run : io A) (w : World) :
  redis_command e run w =
  if fails w then (Raises RedisError, sent e w) else run (sent e w).
Proof.
  unfold redis_command. io_red. unfold fails, sent. simpl.
  by destruct (default false (head (faults w))).
Qed.

Ltac set_step :=
  unfold redis_set; rewrite redis_command_eq; unfold modify;
  match goal with |- context [if ?b then _ else _] => by destruct b end.

Lemma get_redis_connection_eq (w : World) :
  get_redis_connection w =
  if redis w then (Returns (negb (fails w)), sent RedisPing w)
  else (Returns false, w).
Proof.
  unfold get_redis_connection, redis_ping. io_red. destruct (redis w); [|done].
  rewrite redis_command_eq. by destruct (fails w).
Qed.

Lemma try_cache_eq (key : string) (w : World) :
  try_cache key w =
  (Returns (if fails w then None
            else s ← live w key; if truthy s then loads_Product s else None),
   sent (RedisGet key) w).
Proof.
  unfold try_cache, redis_get, parse_cached. io_red. rewrite redis_command_eq.
  destruct (fails w); [done|]. io_red.
  change (live (sent (RedisGet key) w) key) with (live w key).
  destruct (live w key) as [s|]; [|done]. simpl.
  destruct (truthy s); [|done]. by destruct (loads_Product s).
Qed.

Lemma fails_fault (w : World) : fails w = fault w 0.
Proof. unfold fails, fault. by destruct (faults w). Qed.

Lemma fault_sent (e : event pyfloat) (w : World) (n : nat) :
  fault (sent e w) n = fault w (S n).
Proof. unfold fault. simpl. by destruct (faults w). Qed.

(** *** The three coroutines, run symbolically *)

Lemma get_product_eq (w : World) (product_id : Z) :
  get_product product_id w =
  let key := _product_cache_key product_id in
  let conn := redis w && negb (fails w) in
  let w1 := if redis w then sent RedisPing w else w in
  let cached :=
    if conn && negb (fails w1)
    then s ← live w key; if truthy s then loads_Product s else None
    else None in
  let w2 := if conn then sent (RedisGet key) w1 else w1 in
  match cached with
  | Some p => (Returns p, w2)
  | None =>
      let w3 := with_trace (trace w2 ++ [DbGet product_id]) w2 in
      match PRODUCTS_DB w !! product_id with
      | None => (Raises (HTTPException 404), w3)
      | Some prod =>
          let e := RedisSet key (json_dumps prod) CACHE_TTL in
          (Returns prod,
           if conn then
             if fails w3 then sent e w3
             else with_keyspace
                    (<[key := (json_dumps prod, now w + CACHE_TTL)]> (keyspace w))
                    (sent e w3)
           else w3)
      end
  end.
Proof.
  unfold get_product, get_product_from_db.
  io_red. rewrite get_redis_connection_eq.
  destruct (redis w); simpl.
  - destruct (fails w); simpl.
    + destruct (PRODUCTS_DB w !! product_id); reflexivity.
    + rewrite try_cache_eq.
      destruct (fails (sent RedisPing w)); simpl.
      * destruct (PRODUCTS_DB w !! product_id) as [prod|]; [|done].
        set_step.
      * change (live (sent RedisPing w) (_product_cache_key product_id))
          with (live w (_product_cache_key product_id)).
        destruct (live w (_product_cache_key product_id)) as [s|]; simpl.
        -- destruct (truthy s); [destruct (loads_Product s) as [p|]|]; simpl.
           ++ reflexivity.
           ++ destruct (PRODUCTS_DB w !! product_id) as [prod|]; [|done].
              set_step.
           ++ destruct (PRODUCTS_DB w !! product_id) as [prod|]; [|done].
              set_step.
        -- destruct (PRODUCTS_DB w !! product_id) as [prod|]; [|done].
           set_step.
  - destruct (PRODUCTS_DB w !! product_id); reflexivity.
Qed.

Lemma update_product_eq (w : World) (product_id : Z) (update : ProductUpdate pyfloat) :
  update_product product_id update w =
  match PRODUCTS_DB w !! product_id with
  | None =>
      (Raises (HTTPException 404),
       with_trace (trace w ++ [DbGet product_id]) w)
  | Some existing =>
      let updated := apply_update existing update in
      (Returns updated,
       mkWorld (<[product_id := updated]> (PRODUCTS_DB w)) (redis w)
         (keyspace w) (now w) (faults w) (background_tasks w ++ [product_id])
         (trace w ++ [DbGet product_id; DbPut product_id updated; AddTask product_id]))
  end.
Proof.
  unfold update_product, get_product_from_db, db_put, add_task.
  io_red. destruct (PRODUCTS_DB w !! product_id); [|done].
  unfold with_tasks, with_trace, with_db. simpl. by rewrite <- !app_assoc.
Qed.

Lemma invalidate_cache_eq (w : World) (product_id : Z) :
  invalidate_cache product_id w =
  let key := _product_cache_key product_id in
  (Returns tt,
   if redis w then
     let w1 := sent RedisPing w in
     if fails w then w1
     else if fails w1 then sent (RedisDelete key) w1
     else with_keyspace (delete key (keyspace w)) (sent (RedisDelete key) w1)
   else w).
Proof.
  unfold invalidate_cache. io_red. rewrite get_redis_connection_eq.
  destruct (redis w); [|done]. destruct (fails w); [done|]. simpl.
  unfold redis_delete. rewrite redis_command_eq. unfold modify.
  by destruct (fails _).
Qed.

Lemma on_startup_eq (w : World) :
  on_startup w =
  let w1 := sent RedisConnect w in
  (Returns tt,
   if fails w then with_redis false w1
   else if fails w1 then with_redis false (sent RedisPing (with_redis true w1))
   else sent RedisPing (with_redis true w1)).
Proof.
  unfold on_startup, redis_from_url, redis_ping. io_red. rewrite redis_command_eq.
  destruct (fails w); [done|]. io_red. rewrite redis_command_eq.
  change (fails (with_redis true (sent RedisConnect w)))
    with (fails (sent RedisConnect w)).
  by destruct (fails (sent RedisConnect w)).
Qed.

(** The same run, read off the fault tape of the starting world. *)
Lemma get_product_run (w : World) (product_id : Z) :
  get_product product_id w =
  let key := _product_cache_key product_id in
  let conn := redis w && negb (fault w 0) in
  let w2 :=
    if redis w then
      if fault w 0 then sent RedisPing w else sent (RedisGet key) (sent RedisPing w)
    else w in
  match cache_hit w product_id with
  | Some p => (Returns p, w2)
  | None =>
      let w3 := with_trace (trace w2 ++ [DbGet product_id]) w2 in
      match PRODUCTS_DB w !! product_id with
      | None => (Raises (HTTPException 404), w3)
      | Some prod =>
          let e := RedisSet key (json_dumps prod) CACHE_TTL in
          (Returns prod,
           if conn then
             if fault w 2 then sent e w3
             else with_keyspace
                    (<[key := (json_dumps prod, now w + CACHE_TTL)]> (keyspace w))
                    (sent e w3)
           else w3)
      end
  end.
Proof.
  rewrite get_product_eq. unfold cache_hit. cbv zeta.
  rewrite <- (fails_fault w).
  destruct (redis w); simpl; [|done].
  destruct (fails w); simpl; [done|].
  rewrite (fails_fault (sent RedisPing w)), fault_sent.
  change (fails (with_trace ?tr ?w')) with (fails w').
  by rewrite (fails_fault (sent _ _)), !fault_sent.
Qed.

(** *** What [get_product] answers *)

Lemma get_product_result (w : World) (product_id : Z) :
  (get_product product_id w).1 =
  match cache_hit w product_id with
  | Some p => Returns p
  | None => from_db w product_id
  end.
Proof.
  rewrite get_product_run. cbv zeta. unfold from_db.
  destruct (cache_hit w product_id); [done|].
  by destruct (PRODUCTS_DB w !! product_id).
Qed.

Lemma truthy_spec (s : string) : truthy s = true ↔ s ≠ "".
Proof. by destruct s. Qed.

Lemma cache_hit_Some (w : World) (product_id : Z) (p : Product pyfloat) :
  cache_hit w product_id = Some p ↔
  redis w = true ∧ fault w 0 = false ∧ fault w 1 = false ∧
  ∃ s, live w (_product_cache_key product_id) = Some s ∧ s ≠ "" ∧
       loads_Product s = Some p.
Proof.
  unfold cache_hit.
  destruct (redis w), (fault w 0), (fault w 1); simpl;
    try by (split; [|intros (?&?&?&?)]).
  split.
  - destruct (live w _) as [s|]; [|done]. simpl.
    destruct (truthy s) eqn:Hs; [|done]. intros Hp.
    repeat split. exists s. by rewrite <- truthy_spec.
  - intros (_ & _ & _ & s & -> & Hs & Hp). simpl.
    apply truthy_spec in Hs. by rewrite Hs.
Qed.

Lemma cache_hit_None (w : World) (product_id : Z) :
  cache_hit w product_id = None ↔ cache_miss w product_id.
Proof.
  unfold cache_hit, cache_miss.
  destruct (redis w); [|by split; [left|]].
  destruct (fault w 0); [by split; [right; left|]|].
  destruct (fault w 1); [by split; [do 2 right; left|]|].
  simpl. destruct (live w _) as [s|]; simpl;
    [|by split; [do 3 right; left|]].
  destruct s as [|c s]; simpl; [by split; [do 4 right; left|]|].
  split.
  - intros Hp. do 5 right. by exists (String c s).
  - intros [?|[?|[?|[?|[?|(s' & [= <-] & Hp)]]]]]; done.
Qed.

(** [get_product] never writes the table. *)
Lemma get_product_db (w : World) (product_id : Z) :
  PRODUCTS_DB (get_product product_id w).2 = PRODUCTS_DB w.
Proof.
  rewrite get_product_run. cbv zeta.
  destruct (cache_hit w product_id).
  - simpl. by destruct (redis w), (fault w 0).
  - destruct (PRODUCTS_DB w !! product_id); simpl;
      by destruct (redis w), (fault w 0), (fault w 2).
Qed.

(** What a call leaves on the Redis server: nothing new, or the row it
    just read from the table, under the key of its id, for [CACHE_TTL]
    seconds. *)
Lemma get_product_keyspace (w : World) (product_id : Z) :
  keyspace (get_product product_id w).2 = keyspace w
  ∨ ∃ prod, PRODUCTS_DB w !! product_id = Some prod ∧
      keyspace (get_product product_id w).2 =
      <[_product_cache_key product_id := (json_dumps prod, now w + CACHE_TTL)]>
        (keyspace w).
Proof.
  rewrite get_product_run. cbv zeta.
  destruct (cache_hit w product_id).
  - left. simpl. by destruct (redis w), (fault w 0).
  - destruct (PRODUCTS_DB w !! product_id) as [prod|] eqn:Hdb; simpl.
    + destruct (redis w), (fault w 0), (fault w 2); simpl; eauto.
    + left. by destruct (redis w), (fault w 0).
Qed.


(** *** The claims about a single call *)

(** C1, as amended: for an id the table holds, [get_product] returns the
    table's current row whenever the cache gives nothing for the key of the
    id: no handle, [ping] or [get] raising, no live entry, an empty string or
    one that does not read back as a product.  When the cache does hold a
    live, readable entry, [get_product] returns that entry instead. *)
Theorem fetch_present_id (w : World) (product_id : Z) (prod : Product pyfloat) :
  PRODUCTS_DB w !! product_id = Some prod →
  (cache_miss w product_id → (get_product product_id w).1 = Returns prod)
  ∧ (∀ p, cache_hit w product_id = Some p →
          (get_product product_id w).1 = Returns p).
Proof.
  intros Hdb. rewrite get_product_result. split.
  - intros Hmiss%cache_hit_None. rewrite Hmiss.
    unfold from_db. by rewrite Hdb.
  - by intros p ->.
Qed.

(** C5: on a cache hit (the handle is there, [ping] and [get] go through,
    and the server holds a live, non-empty, readable string under the key)
    [get_product] returns the cached product, and the only accesses it makes
    are the [ping] and the [get]: the table is neither read nor written. *)
Theorem cache_hit_leaves_table_alone
    (w : World) (product_id : Z) (s : string) (p : Product pyfloat) :
  redis w = true → fault w 0 = false → fault w 1 = false →
  live w (_product_cache_key product_id) = Some s →
  s ≠ "" →
  loads_Product s = Some p →
  (get_product product_id w).1 = Returns p
  ∧ PRODUCTS_DB (get_product product_id w).2 = PRODUCTS_DB w
  ∧ emitted w (get_product product_id w).2
    = [RedisPing; RedisGet (_product_cache_key product_id)]
  ∧ Forall (λ e, is_db_access e = false)
      (emitted w (get_product product_id w).2).
Proof.
  intros Hredis Hping Hget Hlive Hs Hp.
  assert (cache_hit w product_id = Some p) as Hhit.
  { apply cache_hit_Some. eauto 10. }
  assert (emitted w (get_product product_id w).2
          = [RedisPing; RedisGet (_product_cache_key product_id)]) as Hev.
  { rewrite get_product_run. cbv zeta. rewrite Hhit, Hredis, Hping.
    unfold emitted. simpl. rewrite <- app_assoc.
    apply drop_app_length. }
  split_and!.
  - by rewrite get_product_result, Hhit.
  - apply get_product_db.
  - done.
  - rewrite Hev. by repeat constructor.
Qed.

(** C3: for an id the table holds, [update_product] returns the merged
    row and the table holds it under the id when the call returns; the merged
    row takes each field the update provides and keeps the others, the id
    included. *)
Theorem update_merges_and_stores
    (w : World) (product_id : Z) (update : ProductUpdate pyfloat)
    (existing : Product pyfloat) :
  PRODUCTS_DB w !! product_id = Some existing →
  ∃ updated,
    (update_product product_id update w).1 = Returns updated
    ∧ PRODUCTS_DB (update_product product_id update w).2
      = <[product_id := updated]> (PRODUCTS_DB w)
    ∧ PRODUCTS_DB (update_product product_id update w).2 !! product_id
      = Some updated
    ∧ id updated = id existing
    ∧ name updated = default (name existing) (update_name update)
    ∧ price updated = default (price existing) (update_price update).
Proof.
  intros Hdb. rewrite update_product_eq, Hdb. cbv zeta.
  exists (apply_update existing update). simpl.
  split_and!; try done.
  - apply lookup_insert_eq.
  - unfold apply_update. by destruct (update_name update), (update_price update).
  - unfold apply_update. by destruct (update_name update), (update_price update).
  - unfold apply_update. by destruct (update_name update), (update_price update).
Qed.

Lemma apply_update_empty (existing : Product pyfloat) :
  apply_update existing (mkProductUpdate None None) = existing.
Proof. reflexivity. Qed.

(** C6: an update that provides no field leaves the row of the id, and the
    whole table, as they were, and still queues the invalidation of the id;
    that task, once it runs with Redis reachable, deletes the key of the
    id. *)
Theorem empty_update_still_invalidates
    (w : World) (product_id : Z) (existing : Product pyfloat) :
  PRODUCTS_DB w !! product_id = Some existing →
  let w' := (update_product product_id (mkProductUpdate None None) w).2 in
  PRODUCTS_DB w' !! product_id = Some existing
  ∧ PRODUCTS_DB w' = PRODUCTS_DB w
  ∧ background_tasks w' = background_tasks w ++ [product_id]
  ∧ ∀ w2 : World,
      redis w2 = true → fault w2 0 = false → fault w2 1 = false →
      keyspace (invalidate_cache product_id w2).2
      = delete (_product_cache_key product_id) (keyspace w2).
Proof.
  intros Hdb. rewrite update_product_eq, Hdb. cbv zeta.
  rewrite apply_update_empty. simpl. split_and!.
  - apply lookup_insert_eq.
  - by apply insert_id.
  - done.
  - intros w2 Hredis Hping Hdel. rewrite invalidate_cache_eq. cbv zeta.
    rewrite Hredis, !fails_fault, fault_sent, Hping, Hdel. done.
Qed.

(** C9: [update_product] leaves the row of every other id as it was. *)
Theorem update_touches_one_row
    (w : World) (product_id other : Z) (update : ProductUpdate pyfloat) :
  other ≠ product_id →
  PRODUCTS_DB (update_product product_id update w).2 !! other
  = PRODUCTS_DB w !! other.
Proof.
  intros Hne. rewrite update_product_eq.
  destruct (PRODUCTS_DB w !! product_id); simpl; [|done].
  by apply lookup_insert_ne.
Qed.

(** C10: for an id the table does not hold, [update_product] raises 404
    and leaves the table, the task queue and the Redis server as they were;
    the one access it makes is the read of the table. *)
Theorem update_absent_changes_nothing
    (w : World) (product_id : Z) (update : ProductUpdate pyfloat) :
  PRODUCTS_DB w !! product_id = None →
  (update_product product_id update w).1 = Raises (HTTPException 404)
  ∧ PRODUCTS_DB (update_product product_id update w).2 = PRODUCTS_DB w
  ∧ background_tasks (update_product product_id update w).2 = background_tasks w
  ∧ keyspace (update_product product_id update w).2 = keyspace w
  ∧ emitted w (update_product product_id update w).2 = [DbGet product_id].
Proof.
  intros Hdb. rewrite update_product_eq, Hdb. simpl. split_and!; try done.
  unfold emitted. simpl. apply drop_app_length.
Qed.

(** *** The accesses a call makes *)

Lemma emitted_app (w w' : World) (evs : list (event pyfloat)) :
  trace w' = trace w ++ evs → emitted w w' = evs.
Proof. unfold emitted. intros ->. apply drop_app_length. Qed.

Lemma get_product_emitted (w : World) (product_id : Z) (e : event pyfloat) :
  e ∈ emitted w (get_product product_id w).2 →
  e = RedisPing
  ∨ e = RedisGet (_product_cache_key product_id)
  ∨ e = DbGet product_id
  ∨ ∃ prod, PRODUCTS_DB w !! product_id = Some prod ∧
      e = RedisSet (_product_cache_key product_id) (json_dumps prod) CACHE_TTL.
Proof.
  rewrite get_product_run. cbv zeta.
  destruct (cache_hit w product_id) as [p|];
    [|destruct (PRODUCTS_DB w !! product_id) as [prod|] eqn:Hdb];
    destruct (redis w), (fault w 0), (fault w 2); simpl;
    (erewrite emitted_app; [|simpl; rewrite <- ?app_assoc; simpl; reflexivity
                             || (symmetry; apply app_nil_r)]);
    intros He; repeat (apply elem_of_cons in He as [->|He]);
    try (by apply elem_of_nil in He); eauto 8.
Qed.

Lemma invalidate_cache_emitted (w : World) (product_id : Z) (e : event pyfloat) :
  e ∈ emitted w (invalidate_cache product_id w).2 →
  e = RedisPing ∨ e = RedisDelete (_product_cache_key product_id).
Proof.
  rewrite invalidate_cache_eq. cbv zeta.
  destruct (redis w), (fails w), (fails (sent RedisPing w)); simpl;
    (erewrite emitted_app; [|simpl; rewrite <- ?app_assoc; simpl; reflexivity
                             || (symmetry; apply app_nil_r)]);
    intros He; repeat (apply elem_of_cons in He as [->|He]);
    try (by apply elem_of_nil in He); eauto 8.
Qed.

(** C7: the key is the text [product:] followed by the id in decimal (which
    reads back as the id); every Redis command of [get_product] and of
    [invalidate_cache] that names a key names that one; every [set] of
    [get_product] asks for a lifetime of 60 seconds, and an entry that
    [get_product] adds to the server expires 60 seconds after the call. *)
Theorem cache_key_and_ttl (w : World) (product_id : Z) :
  _product_cache_key product_id = "product:" +:+ str product_id
  ∧ int (str product_id) = Some product_id
  ∧ (∀ e, e ∈ emitted w (get_product product_id w).2 →
       (∀ key, redis_key e = Some key → key = "product:" +:+ str product_id)
       ∧ (∀ ex, redis_ex e = Some ex → ex = 60))
  ∧ (∀ e, e ∈ emitted w (invalidate_cache product_id w).2 →
       ∀ key, redis_key e = Some key → key = "product:" +:+ str product_id)
  ∧ (∀ key value expires,
       keyspace (get_product product_id w).2 !! key = Some (value, expires) →
       keyspace w !! key = Some (value, expires)
       ∨ key = "product:" +:+ str product_id ∧ expires = now w + 60).
Proof.
  split_and!.
  - reflexivity.
  - apply int_str.
  - intros e [-> | [-> | [-> | (prod & _ & ->)]]]%get_product_emitted;
      split; intros ? [=]; by subst.
  - intros e [-> | ->]%invalidate_cache_emitted; intros ? [=]; by subst.
  - intros key value expires.
    destruct (get_product_keyspace w product_id) as [-> | (prod & _ & ->)]; [by left|].
    intros [(<- & [= <- <-])|(_ & ?)]%lookup_insert_Some; [by right|by left].
Qed.

(** C4: no failure of the cache layer reaches the caller.  [get_product]
    raises nothing but 404; in every case of [cache_failure] it answers what
    it answers with no cache at all, which is what the table alone says; a
    [set] that raises stores nothing.  The answer of [update_product] depends
    on the table only.  [invalidate_cache] and [on_startup] always return:
    the first changes nothing on the server when the handle is missing or a
    command raises, the second leaves no handle when the connection or the
    [ping] raises. *)
Theorem cache_failures_absorbed :
  (∀ (w : World) product_id e,
     (get_product product_id w).1 = Raises e → e = HTTPException 404)
  ∧ (∀ (w : World) product_id,
       cache_failure w product_id →
       (get_product product_id w).1 = (get_product product_id (with_redis false w)).1
       ∧ (get_product product_id w).1 = from_db w product_id)
  ∧ (∀ (w : World) product_id,
       fault w 2 = true → keyspace (get_product product_id w).2 = keyspace w)
  ∧ (∀ (w w' : World) product_id update,
       PRODUCTS_DB w = PRODUCTS_DB w' →
       (update_product product_id update w).1 = (update_product product_id update w').1)
  ∧ (∀ (w : World) product_id,
       (invalidate_cache product_id w).1 = Returns tt
       ∧ (redis w = false ∨ fault w 0 = true ∨ fault w 1 = true →
          keyspace (invalidate_cache product_id w).2 = keyspace w))
  ∧ (∀ w : World,
       (on_startup w).1 = Returns tt
       ∧ (fault w 0 = true ∨ fault w 1 = true → redis (on_startup w).2 = false)).
Proof.
  split_and!.
  - intros w product_id e. rewrite get_product_result. unfold from_db.
    destruct (cache_hit w product_id); [done|].
    destruct (PRODUCTS_DB w !! product_id); [done|]. by intros [= <-].
  - intros w product_id Hfail.
    assert (cache_hit w product_id = None) as Hmiss.
    { destruct Hfail as [?|? ?|? ? ?|s ? ? ? ? ?|? ? ? ? ?]; [..|done];
        apply cache_hit_None; unfold cache_miss.
      - by left.
      - by right; left.
      - by do 2 right; left.
      - do 5 right. by exists s. }
    rewrite !get_product_result, Hmiss.
    by replace (cache_hit (with_redis false w) product_id) with (@None (Product pyfloat)).
  - intros w product_id Hset. rewrite get_product_run. cbv zeta.
    destruct (cache_hit w product_id).
    + simpl. by destruct (redis w), (fault w 0).
    + destruct (PRODUCTS_DB w !! product_id); simpl; rewrite ?Hset;
        by destruct (redis w), (fault w 0).
  - intros w w' product_id update Hdb. rewrite !update_product_eq, Hdb.
    by destruct (PRODUCTS_DB w' !! product_id).
  - intros w product_id. rewrite invalidate_cache_eq. cbv zeta. split; [done|].
    simpl. rewrite !fails_fault, fault_sent.
    destruct (redis w), (fault w 0), (fault w 1); simpl; try done.
    by intros [?|[?|?]].
  - intros w. rewrite on_startup_eq. cbv zeta. split; [done|].
    simpl. rewrite !fails_fault, fault_sent.
    destruct (fault w 0), (fault w 1); simpl; try done. by intros [?|?].
Qed.

(** *** Runs *)

Lemma run_task_eq (w : World) (n : nat) :
  run_task n w =
  match background_tasks w !! n with
  | Some product_id =>
      invalidate_cache product_id (with_tasks (delete n (background_tasks w)) w)
  | None => (Returns tt, w)
  end.
Proof.
  unfold run_task. io_red. by destruct (background_tasks w !! n).
Qed.

Lemma invalidate_cache_db (w : World) (product_id : Z) :
  PRODUCTS_DB (invalidate_cache product_id w).2 = PRODUCTS_DB w.
Proof.
  rewrite invalidate_cache_eq. cbv zeta. simpl.
  by destruct (redis w), (fails w), (fails (sent RedisPing w)).
Qed.

Lemma invalidate_cache_keyspace (w : World) (product_id : Z) :
  keyspace (invalidate_cache product_id w).2 = keyspace w
  ∨ keyspace (invalidate_cache product_id w).2
    = delete (_product_cache_key product_id) (keyspace w).
Proof.
  rewrite invalidate_cache_eq. cbv zeta. simpl.
  destruct (redis w), (fails w), (fails (sent RedisPing w)); auto.
Qed.


(** An entry found on the server after a step was there before, or the
    step is a fetch that has just cached the row of its id. *)
Lemma exec_keyspace (w : World) (a : action pyfloat) key value expires :
  keyspace (exec w a) !! key = Some (value, expires) →
  keyspace w !! key = Some (value, expires)
  ∨ ∃ product_id prod,
      a = Fetch product_id ∧ PRODUCTS_DB w !! product_id = Some prod
      ∧ key = _product_cache_key product_id ∧ value = json_dumps prod.
Proof.
  destruct a as [|product_id|product_id update|n|seconds|fs]; simpl.
  - rewrite on_startup_eq. cbv zeta. simpl.
    destruct (fails w), (fails (sent RedisConnect w)); simpl; eauto.
  - destruct (get_product_keyspace w product_id) as [-> | (prod & Hdb & ->)]; [eauto|].
    intros [(<- & [= <- <-])|(_ & ?)]%lookup_insert_Some; eauto 10.
  - rewrite update_product_eq. destruct (PRODUCTS_DB w !! product_id); simpl; eauto.
  - rewrite run_task_eq. destruct (background_tasks w !! n) as [product_id|]; [|eauto].
    destruct (invalidate_cache_keyspace
                (with_tasks (delete n (background_tasks w)) w) product_id)
      as [-> | ->]; [eauto|].
    intros [_ ?]%lookup_delete_Some. eauto.
  - eauto.
  - eauto.
Qed.

(** No step adds an id to the table or removes one from it. *)
Lemma exec_db_None (w : World) (a : action pyfloat) (product_id : Z) :
  PRODUCTS_DB (exec w a) !! product_id = None ↔ PRODUCTS_DB w !! product_id = None.
Proof.
  destruct a as [|i|i update|n|seconds|fs]; simpl; try done.
  - rewrite on_startup_eq. cbv zeta. simpl.
    by destruct (fails w), (fails (sent RedisConnect w)).
  - by rewrite get_product_db.
  - rewrite update_product_eq.
    destruct (PRODUCTS_DB w !! i) as [existing|] eqn:Hdb; simpl; [|done].
    rewrite lookup_insert_None. split; [by intros [? _]|].
    intros Hnone. split; [done|]. intros <-. by rewrite Hdb in Hnone.
  - rewrite run_task_eq. destruct (background_tasks w !! n) as [j|]; [|done].
    by rewrite invalidate_cache_db.
Qed.

Lemma run_db_None (w0 : World) (acts : list (action pyfloat)) (product_id : Z) :
  PRODUCTS_DB (run w0 acts) !! product_id = None ↔ PRODUCTS_DB w0 !! product_id = None.
Proof.
  induction acts as [|a acts IH] using rev_ind; [done|].
  unfold run in *. by rewrite foldl_snoc, exec_db_None.
Qed.

(** Over a server that starts empty, every entry is the serialised form of
    a row the table held under the id of the key at some point of the run. *)
Lemma run_keyspace (w0 : World) (acts : list (action pyfloat)) key value expires :
  keyspace w0 = ∅ →
  keyspace (run w0 acts) !! key = Some (value, expires) →
  ∃ product_id prod pre post,
    acts = pre ++ post ∧ key = _product_cache_key product_id
    ∧ value = json_dumps prod
    ∧ PRODUCTS_DB (run w0 pre) !! product_id = Some prod.
Proof.
  intros Hempty. revert key value expires.
  induction acts as [|a acts IH] using rev_ind; intros key value expires.
  - simpl. by rewrite Hempty, lookup_empty.
  - unfold run in *. rewrite foldl_snoc.
    intros [Hold|(product_id & prod & -> & Hdb & -> & ->)]%exec_keyspace.
    + destruct (IH _ _ _ Hold) as (product_id & prod & pre & post & -> & ? & ? & ?).
      exists product_id, prod, pre, (post ++ [a]). by rewrite app_assoc.
    + exists product_id, prod, acts, [Fetch product_id]. done.
Qed.

Lemma live_Some (w : World) key value :
  live w key = Some value → ∃ expires, keyspace w !! key = Some (value, expires).
Proof.
  unfold live. destruct (keyspace w !! key) as [[v t]|]; [|done].
  destruct (decide (now w < t)); [|done]. intros [= ->]. eauto.
Qed.

(** C2, as amended: for an id the table does not hold, [get_product]
    raises 404 whenever the cache gives nothing for the key of the id, as it
    does when the server is empty or cannot be reached; and in every world
    reached from one whose server holds nothing, whatever the health of the
    cache, the call raises 404. *)
Theorem fetch_absent_id :
  (∀ (w : World) product_id,
     PRODUCTS_DB w !! product_id = None →
     cache_miss w product_id →
     (get_product product_id w).1 = Raises (HTTPException 404))
  ∧ (∀ (w0 : World) acts product_id,
       keyspace w0 = ∅ →
       PRODUCTS_DB (run w0 acts) !! product_id = None →
       (get_product product_id (run w0 acts)).1 = Raises (HTTPException 404)).
Proof.
  assert (∀ (w : World) product_id,
     PRODUCTS_DB w !! product_id = None →
     cache_miss w product_id →
     (get_product product_id w).1 = Raises (HTTPException 404)) as Hmiss.
  { intros w product_id Hdb Hmiss%cache_hit_None.
    rewrite get_product_result, Hmiss. unfold from_db. by rewrite Hdb. }
  split; [done|].
  intros w0 acts product_id Hempty Hdb. apply Hmiss; [done|].
  do 3 right. left.
  destruct (live (run w0 acts) (_product_cache_key product_id)) as [value|] eqn:Hlive;
    [exfalso|done].
  apply live_Some in Hlive as [expires Hks].
  apply run_keyspace in Hks as (i & prod & pre & post & -> & Hkey & _ & Hpre); [|done].
  apply _product_cache_key_inj in Hkey as <-.
  apply run_db_None in Hdb. apply (run_db_None w0 pre) in Hdb. congruence.
Qed.

(** C8: over a server that starts empty and with a serialisation that reads
    back what it wrote, whatever [get_product] returns after any run of
    startups, fetches, updates, background tasks, clock ticks and network
    faults is a row the table held under that id at some point of the run,
    the present one included. *)
Theorem fetch_returns_a_stored_row
    (w0 : World) (acts : list (action pyfloat)) (product_id : Z)
    (p : Product pyfloat) :
  (∀ prod, loads_Product (json_dumps prod) = Some prod) →
  keyspace w0 = ∅ →
  (get_product product_id (run w0 acts)).1 = Returns p →
  ∃ pre post, acts = pre ++ post ∧ PRODUCTS_DB (run w0 pre) !! product_id = Some p.
Proof.
  intros Hround Hempty. rewrite get_product_result.
  destruct (cache_hit (run w0 acts) product_id) as [p'|] eqn:Hhit.
  - intros [= ->].
    apply cache_hit_Some in Hhit as (_ & _ & _ & s & Hlive & _ & Hloads).
    apply live_Some in Hlive as [expires Hks].
    apply run_keyspace in Hks as (i & prod & pre & post & -> & Hkey & -> & Hpre);
      [|done].
    apply _product_cache_key_inj in Hkey as <-.
    rewrite Hround in Hloads. injection Hloads as ->. eauto.
  - unfold from_db.
    destruct (PRODUCTS_DB (run w0 acts) !! product_id) as [prod|] eqn:Hdb; [|done].
    intros [= ->]. exists acts, []. by rewrite app_nil_r.
Qed.

(** *** What the calls leave alone *)

Lemma get_product_frame (w : World) (product_id : Z) :
  redis (get_product product_id w).2 = redis w
  ∧ now (get_product product_id w).2 = now w
  ∧ background_tasks (get_product product_id w).2 = background_tasks w.
Proof.
  rewrite get_product_run. cbv zeta.
  destruct (cache_hit w product_id).
  - simpl. by destruct (redis w) eqn:Hr, (fault w 0); simpl; rewrite ?Hr.
  - destruct (PRODUCTS_DB w !! product_id); simpl;
      by destruct (redis w) eqn:Hr, (fault w 0), (fault w 2); simpl; rewrite ?Hr.
Qed.

Lemma invalidate_cache_frame (w : World) (product_id : Z) :
  redis (invalidate_cache product_id w).2 = redis w
  ∧ now (invalidate_cache product_id w).2 = now w
  ∧ background_tasks (invalidate_cache product_id w).2 = background_tasks w.
Proof.
  rewrite invalidate_cache_eq. cbv zeta. simpl.
  by destruct (redis w) eqn:Hr, (fails w), (fails (sent RedisPing w));
    simpl; rewrite ?Hr.
Qed.

Lemma on_startup_frame (w : World) :
  PRODUCTS_DB (on_startup w).2 = PRODUCTS_DB w
  ∧ keyspace (on_startup w).2 = keyspace w
  ∧ now (on_startup w).2 = now w
  ∧ background_tasks (on_startup w).2 = background_tasks w.
Proof.
  rewrite on_startup_eq. cbv zeta. simpl.
  by destruct (fails w), (fails (sent RedisConnect w)).
Qed.

(** X1: after [on_startup] the handle is there exactly when both the
    connection and the [ping] went through, whatever the handle was before;
    the table, the server and the task queue are as they were. *)
Theorem on_startup_handle (w : World) :
  redis (on_startup w).2 = negb (fault w 0) && negb (fault w 1)
  ∧ PRODUCTS_DB (on_startup w).2 = PRODUCTS_DB w
  ∧ keyspace (on_startup w).2 = keyspace w
  ∧ background_tasks (on_startup w).2 = background_tasks w.
Proof.
  destruct (on_startup_frame w) as (? & ? & _ & ?). split_and!; try done.
  rewrite on_startup_eq. cbv zeta. simpl. rewrite !fails_fault, fault_sent.
  by destruct (fault w 0), (fault w 1).
Qed.

(** X2: [on_shutdown] closes the connection only when there is a handle,
    and it is the one coroutine that lets a Redis failure through: when the
    [close] raises, so does [on_shutdown].  It leaves the handle, the server
    and the table as they were. *)
Theorem on_shutdown_lets_failure_through (w : World) :
  (on_shutdown w).1
  = (if redis w && fault w 0 then Raises RedisError else Returns tt)
  ∧ emitted w (on_shutdown w).2 = (if redis w then [RedisClose] else [])
  ∧ redis (on_shutdown w).2 = redis w
  ∧ keyspace (on_shutdown w).2 = keyspace w
  ∧ PRODUCTS_DB (on_shutdown w).2 = PRODUCTS_DB w.
Proof.
  unfold on_shutdown, redis_close. io_red.
  destruct (redis w) eqn:Hredis; simpl.
  - rewrite redis_command_eq, fails_fault.
    destruct (fault w 0); simpl; rewrite ?Hredis; split_and!; try done;
      by apply emitted_app.
  - split_and!; try done. apply emitted_app. by rewrite app_nil_r.
Qed.

(** *** The cache entry of an id *)

Lemma get_product_hit_run (w : World) (product_id : Z) (p : Product pyfloat) :
  cache_hit w product_id = Some p →
  get_product product_id w
  = (Returns p, sent (RedisGet (_product_cache_key product_id)) (sent RedisPing w)).
Proof.
  intros Hhit. rewrite get_product_run. cbv zeta. rewrite Hhit.
  apply cache_hit_Some in Hhit as (-> & -> & _). done.
Qed.

Lemma get_product_fill_run (w : World) (product_id : Z) (prod : Product pyfloat) :
  cache_hit w product_id = None →
  PRODUCTS_DB w !! product_id = Some prod →
  redis w = true → fault w 0 = false → fault w 2 = false →
  let key := _product_cache_key product_id in
  get_product product_id w
  = (Returns prod,
     with_keyspace (<[key := (json_dumps prod, now w + CACHE_TTL)]> (keyspace w))
       (sent (RedisSet key (json_dumps prod) CACHE_TTL)
          (with_trace (trace w ++ [RedisPing; RedisGet key; DbGet product_id])
             (sent (RedisGet key) (sent RedisPing w))))).
Proof.
  intros Hmiss Hdb Hredis Hping Hset. rewrite get_product_run. cbv zeta.
  rewrite Hmiss, Hdb, Hredis, Hping, Hset. simpl. by rewrite <- !app_assoc.
Qed.


(** X3: distinct ids have distinct cache keys. *)
Theorem distinct_ids_distinct_keys (m n : Z) :
  m ≠ n → _product_cache_key m ≠ _product_cache_key n.
Proof. intros Hne Heq. by apply Hne, _product_cache_key_inj. Qed.

(** X4: [get_product] writes to the server in one case only: the cache
    gave nothing, the table holds the id, the handle is there, and neither
    the [ping] nor the [set] raised; then the entry of the id becomes the
    serialised row, due in [CACHE_TTL] seconds.  So a 404 is never cached and
    a hit does not extend the life of its entry.  The entry of any other id
    is as it was. *)
Theorem fetch_writes_cache_on_filled_miss_only (w : World) (product_id : Z) :
  (PRODUCTS_DB w !! product_id = None ∨ is_Some (cache_hit w product_id)
   ∨ redis w = false ∨ fault w 0 = true ∨ fault w 2 = true →
   keyspace (get_product product_id w).2 = keyspace w)
  ∧ (∀ prod,
       PRODUCTS_DB w !! product_id = Some prod →
       cache_hit w product_id = None →
       redis w = true → fault w 0 = false → fault w 2 = false →
       keyspace (get_product product_id w).2
       = <[_product_cache_key product_id := (json_dumps prod, now w + CACHE_TTL)]>
           (keyspace w))
  ∧ (∀ other,
       other ≠ product_id →
       keyspace (get_product product_id w).2 !! _product_cache_key other
       = keyspace w !! _product_cache_key other).
Proof.
  split_and!.
  - intros Hcase. rewrite get_product_run. cbv zeta.
    destruct (cache_hit w product_id) as [p|] eqn:Hhit.
    + simpl. by destruct (redis w), (fault w 0).
    + destruct (PRODUCTS_DB w !! product_id) as [prod|] eqn:Hdb; simpl.
      * destruct Hcase as [?|[[? ?]|[Hr|[Hp|Hs]]]]; try done;
          rewrite ?Hr, ?Hp, ?Hs; simpl; try done;
          by destruct (redis w), (fault w 0).
      * by destruct (redis w), (fault w 0).
  - intros prod Hdb Hmiss Hredis Hping Hset.
    by rewrite (get_product_fill_run w product_id prod).
  - intros other Hne.
    destruct (get_product_keyspace w product_id) as [-> | (prod & _ & ->)]; [done|].
    apply lookup_insert_ne. intros Heq. by apply Hne, _product_cache_key_inj.
Qed.

(** X5: [invalidate_cache] leaves the table, the task queue and the handle
    as they were and touches no key but that of its id; when the handle is
    there and neither the [ping] nor the [delete] raises, the key of the id
    is gone afterwards. *)
Theorem invalidation_touches_one_key (w : World) (product_id : Z) :
  PRODUCTS_DB (invalidate_cache product_id w).2 = PRODUCTS_DB w
  ∧ background_tasks (invalidate_cache product_id w).2 = background_tasks w
  ∧ redis (invalidate_cache product_id w).2 = redis w
  ∧ (∀ key, key ≠ _product_cache_key product_id →
       keyspace (invalidate_cache product_id w).2 !! key = keyspace w !! key)
  ∧ (∀ other, other ≠ product_id →
       keyspace (invalidate_cache product_id w).2 !! _product_cache_key other
       = keyspace w !! _product_cache_key other)
  ∧ (redis w = true → fault w 0 = false → fault w 1 = false →
     keyspace (invalidate_cache product_id w).2 !! _product_cache_key product_id
     = None).
Proof.
  destruct (invalidate_cache_frame w product_id) as (? & _ & ?).
  assert (∀ key, key ≠ _product_cache_key product_id →
       keyspace (invalidate_cache product_id w).2 !! key = keyspace w !! key) as Hkeys.
  { intros key Hne.
    destruct (invalidate_cache_keyspace w product_id) as [-> | ->]; [done|].
    by apply lookup_delete_ne. }
  split_and!; try done.
  - apply invalidate_cache_db.
  - intros other Hne. apply Hkeys. intros Heq.
    by apply Hne, _product_cache_key_inj.
  - intros Hredis Hping Hdel. rewrite invalidate_cache_eq. cbv zeta.
    rewrite Hredis, !fails_fault, fault_sent, Hping, Hdel. simpl.
    apply lookup_delete_eq.
Qed.

(** *** Calls in sequence *)

Lemma fault_after (w w' : World) (k n : nat) :
  faults w' = drop k (faults w) → fault w' n = fault w (k + n).
Proof. unfold fault. intros ->. by rewrite lookup_drop. Qed.


(** X7: with the handle there, a serialisation that is never empty and
    reads back what it wrote, and five Redis commands in a row that go
    through, a [get_product] that returned a product is followed by one that
    returns the same product from the cache, with a [ping] and a [get] as its
    only accesses. *)
Theorem fetch_twice_hits (w : World) (product_id : Z) (p : Product pyfloat) :
  (∀ prod, loads_Product (json_dumps prod) = Some prod) →
  (∀ prod, json_dumps prod ≠ "") →
  redis w = true →
  (∀ n, (n < 5)%nat → fault w n = false) →
  (get_product product_id w).1 = Returns p →
  let w' := (get_product product_id w).2 in
  (get_product product_id w').1 = Returns p
  ∧ emitted w' (get_product product_id w').2
    = [RedisPing; RedisGet (_product_cache_key product_id)].
Proof.
  intros Hround Hfull Hredis Hok Hfirst. cbv zeta.
  assert (cache_hit (get_product product_id w).2 product_id = Some p) as Hhit'.
  { rewrite get_product_result in Hfirst.
    destruct (cache_hit w product_id) as [p'|] eqn:Hhit.
    - injection Hfirst as ->. rewrite (get_product_hit_run w product_id p Hhit).
      simpl. apply cache_hit_Some in Hhit as (_ & _ & _ & s & Hlive & Hs & Hp).
      apply cache_hit_Some. split_and!; [done|..].
      + rewrite !fault_sent. apply Hok. lia.
      + rewrite !fault_sent. apply Hok. lia.
      + by exists s.
    - unfold from_db in Hfirst.
      destruct (PRODUCTS_DB w !! product_id) as [prod|] eqn:Hdb; [|done].
      injection Hfirst as ->.
      rewrite (get_product_fill_run w product_id p Hhit Hdb Hredis)
        by (apply Hok; lia).
      cbv zeta. simpl. apply cache_hit_Some. split_and!; [done|..].
      + rewrite (fault_after w _ 3); [apply Hok; lia|].
        simpl. by destruct (faults w) as [|? [|? [|? ?]]].
      + rewrite (fault_after w _ 3); [apply Hok; lia|].
        simpl. by destruct (faults w) as [|? [|? [|? ?]]].
      + exists (json_dumps p). split_and!; [|done|done].
        unfold live. simpl. rewrite lookup_insert_eq.
        unfold CACHE_TTL. case_decide; [done|lia]. }
  rewrite (get_product_hit_run _ product_id p Hhit'). split; [done|].
  simpl. apply emitted_app. simpl. by rewrite <- app_assoc.
Qed.

Lemma apply_update_merge
    (existing : Product pyfloat) (first second : ProductUpdate pyfloat) :
  apply_update (apply_update existing first) second
  = apply_update existing (merge_update first second).
Proof.
  unfold apply_update, merge_update.
  by destruct (update_name first), (update_price first),
    (update_name second), (update_price second).
Qed.

(** X8: two updates of an id the table holds, one after the other, leave
    the table as the single merged update does and return its row; the
    second update wins on a field both provide.  Each of the two queues its
    own invalidation. *)
Theorem updates_compose
    (w : World) (product_id : Z) (first second : ProductUpdate pyfloat)
    (existing : Product pyfloat) :
  PRODUCTS_DB w !! product_id = Some existing →
  let w1 := (update_product product_id first w).2 in
  (update_product product_id second w1).1
  = Returns (apply_update existing (merge_update first second))
  ∧ PRODUCTS_DB (update_product product_id second w1).2
    = PRODUCTS_DB (update_product product_id (merge_update first second) w).2
  ∧ background_tasks (update_product product_id second w1).2
    = background_tasks w ++ [product_id; product_id].
Proof.
  intros Hdb. cbv zeta. rewrite !update_product_eq, Hdb. cbv zeta. simpl.
  rewrite lookup_insert_eq. simpl. rewrite apply_update_merge.
  split_and!; [done| |by rewrite <- app_assoc].
  apply insert_insert_eq.
Qed.

(** X9: updates of two different ids leave the same table in either
    order. *)
Theorem updates_commute
    (w : World) (i j : Z) (u v : ProductUpdate pyfloat) :
  i ≠ j →
  PRODUCTS_DB (update_product j v (update_product i u w).2).2
  = PRODUCTS_DB (update_product i u (update_product j v w).2).2.
Proof.
  intros Hne. rewrite !update_product_eq.
  destruct (PRODUCTS_DB w !! i) as [a|] eqn:Hi,
           (PRODUCTS_DB w !! j) as [b|] eqn:Hj; simpl;
    rewrite ?lookup_insert_ne, ?Hi, ?Hj by done; simpl; try done.
  by apply insert_insert_ne.
Qed.

(** *** What holds along every run *)

Lemma run_snoc (w0 : World) (acts : list (action pyfloat)) (a : action pyfloat) :
  run w0 (acts ++ [a]) = exec (run w0 acts) a.
Proof. unfold run. apply foldl_snoc. Qed.

(** X10: no run adds an id to the table or removes one: the ids the table
    holds are those it started with. *)
Theorem table_ids_fixed (w0 : World) (acts : list (action pyfloat)) :
  dom (PRODUCTS_DB (run w0 acts)) = dom (PRODUCTS_DB w0).
Proof.
  apply set_eq. intros k.
  destruct (decide (k ∈ dom (PRODUCTS_DB w0))) as [Hin|Hout].
  - split; [done|]. intros _.
    destruct (decide (k ∈ dom (PRODUCTS_DB (run w0 acts)))) as [|Hno]; [done|].
    apply not_elem_of_dom, run_db_None in Hno. by apply not_elem_of_dom in Hno.
  - split; [|done]. intros Hin. exfalso.
    apply not_elem_of_dom in Hout. apply (run_db_None w0 acts) in Hout.
    by apply not_elem_of_dom in Hout.
Qed.

Lemma exec_redis (w : World) (a : action pyfloat) :
  a ≠ Startup → redis (exec w a) = redis w.
Proof.
  destruct a as [|i|i update|n|seconds|fs]; simpl; try done.
  - intros _. apply get_product_frame.
  - intros _. rewrite update_product_eq. by destruct (PRODUCTS_DB w !! i).
  - intros _. rewrite run_task_eq. destruct (background_tasks w !! n); [|done].
    by destruct (invalidate_cache_frame
                   (with_tasks (delete n (background_tasks w)) w) z) as (-> & _).
Qed.

(** X11: only [on_startup] sets the handle.  Along a run with no startup
    the handle stays what it was: a request that meets a failing Redis does
    not drop it, and none ever connects again. *)
Theorem handle_set_at_startup_only (w0 : World) (acts : list (action pyfloat)) :
  Startup ∉ acts → redis (run w0 acts) = redis w0.
Proof.
  induction acts as [|a acts IH] using rev_ind; [done|].
  intros [Hno Hlast%not_elem_of_cons]%not_elem_of_app.
  destruct Hlast as [Hlast _].
  rewrite run_snoc, exec_redis by done. by apply IH.
Qed.

Lemma exec_offline (w : World) (a : action pyfloat) :
  redis w = false → a ≠ Startup →
  keyspace (exec w a) = keyspace w
  ∧ ∃ evs, trace (exec w a) = trace w ++ evs
           ∧ Forall (λ e, is_redis_command e = false) evs.
Proof.
  intros Hredis Hne.
  destruct a as [|i|i update|n|seconds|fs]; simpl; try done.
  - rewrite get_product_run. cbv zeta.
    replace (cache_hit w i) with (@None (Product pyfloat))
      by (symmetry; apply cache_hit_None; by left).
    rewrite Hredis.
    destruct (PRODUCTS_DB w !! i); simpl; (split; [done|]);
      exists [DbGet i]; by repeat constructor.
  - rewrite update_product_eq. destruct (PRODUCTS_DB w !! i); simpl; (split; [done|]).
    + eexists. split; [done|]. by repeat constructor.
    + exists [DbGet i]. by repeat constructor.
  - rewrite run_task_eq. destruct (background_tasks w !! n); simpl.
    + rewrite invalidate_cache_eq. cbv zeta. simpl. rewrite Hredis. simpl.
      split; [done|]. exists []. by rewrite app_nil_r.
    + split; [done|]. exists []. by rewrite app_nil_r.
  - split; [done|]. exists []. by rewrite app_nil_r.
  - split; [done|]. exists []. by rewrite app_nil_r.
Qed.

(** X12: when [on_startup] left no handle, the service runs without Redis
    for good: along a run with no further startup the server is never
    written, no command is ever sent to it, and every [get_product] answers
    what the table says. *)
Theorem no_handle_no_redis
    (w0 : World) (acts : list (action pyfloat)) (product_id : Z) :
  redis w0 = false → Startup ∉ acts →
  keyspace (run w0 acts) = keyspace w0
  ∧ Forall (λ e, is_redis_command e = false) (emitted w0 (run w0 acts))
  ∧ (get_product product_id (run w0 acts)).1 = from_db (run w0 acts) product_id.
Proof.
  intros Hredis Hno.
  assert (redis (run w0 acts) = false ∧ keyspace (run w0 acts) = keyspace w0
          ∧ ∃ evs, trace (run w0 acts) = trace w0 ++ evs
                   ∧ Forall (λ e, is_redis_command e = false) evs)
    as (Hoff & Hks & evs & Htr & Hevs).
  { revert Hno. induction acts as [|a acts IH] using rev_ind; intros Hno.
    - split_and!; [done..|]. exists []. by rewrite app_nil_r.
    - apply not_elem_of_app in Hno as [Hno Hlast%not_elem_of_cons].
      destruct Hlast as [Hlast _].
      destruct IH as (Hoff & Hks & evs & Htr & Hevs); [done|].
      rewrite run_snoc.
      destruct (exec_offline (run w0 acts) a) as (Hks' & evs' & Htr' & Hevs');
        [done|done|].
      split_and!.
      + by rewrite exec_redis.
      + by rewrite Hks'.
      + exists (evs ++ evs'). rewrite Htr', Htr, <- app_assoc. split; [done|].
        by apply Forall_app. }
  split_and!; [done| |].
  - by rewrite (emitted_app _ _ _ Htr).
  - rewrite get_product_result.
    replace (cache_hit (run w0 acts) product_id) with (@None (Product pyfloat));
      [done|].
    symmetry. apply cache_hit_None. by left.
Qed.

Lemma exec_now (w : World) (a : action pyfloat) : now w ≤ now (exec w a).
Proof.
  destruct a as [|i|i update|n|seconds|fs]; simpl; try lia.
  - destruct (on_startup_frame w) as (_ & _ & -> & _). lia.
  - destruct (get_product_frame w i) as (_ & -> & _). lia.
  - rewrite update_product_eq. destruct (PRODUCTS_DB w !! i); simpl; lia.
  - rewrite run_task_eq. destruct (background_tasks w !! n); simpl; [|lia].
    destruct (invalidate_cache_frame
                (with_tasks (delete n (background_tasks w)) w) z) as (_ & -> & _).
    simpl. lia.
Qed.

(** Every entry on the server is due within [CACHE_TTL] seconds. *)
Lemma exec_due (w : World) (a : action pyfloat) :
  (∀ key value expires,
     keyspace w !! key = Some (value, expires) → expires ≤ now w + CACHE_TTL) →
  ∀ key value expires,
    keyspace (exec w a) !! key = Some (value, expires) →
    expires ≤ now (exec w a) + CACHE_TTL.
Proof.
  intros Hdue key value expires Hks.
  assert (keyspace w !! key = Some (value, expires) ∨ expires = now w + CACHE_TTL)
    as [Hold| ->]; [|pose proof (exec_now w a); apply Hdue in Hold; lia
                    |pose proof (exec_now w a); lia].
  destruct a as [|i|i update|n|seconds|fs]; simpl in Hks; auto.
  - destruct (on_startup_frame w) as (_ & Heq & _). rewrite Heq in Hks. auto.
  - destruct (get_product_keyspace w i) as [Heq | (prod & _ & Heq)];
      rewrite Heq in Hks; [auto|].
    apply lookup_insert_Some in Hks as [(_ & [= _ <-])|(_ & ?)]; auto.
  - rewrite update_product_eq in Hks.
    destruct (PRODUCTS_DB w !! i); simpl in Hks; auto.
  - rewrite run_task_eq in Hks. destruct (background_tasks w !! n) as [j|]; [|auto].
    destruct (invalidate_cache_keyspace
                (with_tasks (delete n (background_tasks w)) w) j) as [Heq | Heq];
      rewrite Heq in Hks; simpl in Hks; [auto|].
    apply lookup_delete_Some in Hks as [_ ?]. auto.
Qed.

(** X13: staleness is bounded by the lifetime of an entry.  Over a server
    that starts empty, once [CACHE_TTL] seconds have passed since the last
    request, [get_product] answers what the table says, whether or not any
    invalidation has run. *)
Theorem fresh_after_ttl
    (w0 : World) (acts : list (action pyfloat)) (seconds : nat) (product_id : Z) :
  keyspace w0 = ∅ →
  CACHE_TTL ≤ Z.of_nat seconds →
  (get_product product_id (exec (run w0 acts) (Tick seconds))).1
  = from_db (run w0 acts) product_id.
Proof.
  intros Hempty Hlate.
  assert (∀ key value expires,
     keyspace (run w0 acts) !! key = Some (value, expires) →
     expires ≤ now (run w0 acts) + CACHE_TTL) as Hdue.
  { induction acts as [|a acts IH] using rev_ind.
    - intros key value expires. simpl. by rewrite Hempty, lookup_empty.
    - rewrite run_snoc. by apply exec_due. }
  rewrite get_product_result. simpl.
  replace (cache_hit _ _) with (@None (Product pyfloat)); [done|].
  symmetry. apply cache_hit_None. do 3 right. left.
  unfold live. simpl.
  destruct (keyspace (run w0 acts) !! _product_cache_key product_id)
    as [[value expires]|] eqn:Hks; [|done].
  apply Hdue in Hks. case_decide; [lia|done].
Qed.

Lemma apply_update_id (existing : Product pyfloat) (update : ProductUpdate pyfloat) :
  id (apply_update existing update) = id existing.
Proof. unfold apply_update. by destruct (update_name update), (update_price update). Qed.

Lemma exec_rows_keyed (w : World) (a : action pyfloat) :
  rows_keyed (PRODUCTS_DB w) → rows_keyed (PRODUCTS_DB (exec w a)).
Proof.
  intros Hkeyed.
  destruct a as [|i|i update|n|seconds|fs]; simpl; try done.
  - by destruct (on_startup_frame w) as (-> & _).
  - by rewrite get_product_db.
  - rewrite update_product_eq.
    destruct (PRODUCTS_DB w !! i) as [existing|] eqn:Hdb; simpl; [|done].
    intros k row [(<- & <-)|(_ & ?)]%lookup_insert_Some; [|by apply Hkeyed].
    rewrite apply_update_id. by apply Hkeyed.
  - rewrite run_task_eq. destruct (background_tasks w !! n); [|done].
    by rewrite invalidate_cache_db.
Qed.

Lemma run_rows_keyed (w0 : World) (acts : list (action pyfloat)) :
  rows_keyed (PRODUCTS_DB w0) → rows_keyed (PRODUCTS_DB (run w0 acts)).
Proof.
  intros Hkeyed. induction acts as [|a acts IH] using rev_ind; [done|].
  rewrite run_snoc. by apply exec_rows_keyed.
Qed.

(** X14: when every row of the starting table carries the key it is stored
    under as its id, the server starts empty and the serialisation reads back
    what it wrote, a product that [get_product] returns for an id carries
    that id, after any run and whether it comes from the cache or from the
    table. *)
Theorem fetched_product_has_the_id
    (w0 : World) (acts : list (action pyfloat)) (product_id : Z)
    (p : Product pyfloat) :
  rows_keyed (PRODUCTS_DB w0) →
  (∀ prod, loads_Product (json_dumps prod) = Some prod) →
  keyspace w0 = ∅ →
  (get_product product_id (run w0 acts)).1 = Returns p →
  id p = product_id.
Proof.
  intros Hkeyed Hround Hempty. rewrite get_product_result.
  destruct (cache_hit (run w0 acts) product_id) as [p'|] eqn:Hhit.
  - intros [= ->].
    apply cache_hit_Some in Hhit as (_ & _ & _ & s & Hlive & _ & Hloads).
    apply live_Some in Hlive as [expires Hks].
    apply run_keyspace in Hks as (i & prod & pre & post & -> & Hkey & -> & Hpre);
      [|done].
    apply _product_cache_key_inj in Hkey as <-.
    rewrite Hround in Hloads. injection Hloads as ->.
    by apply (run_rows_keyed w0 pre Hkeyed).
  - unfold from_db.
    destruct (PRODUCTS_DB (run w0 acts) !! product_id) as [prod|] eqn:Hdb; [|done].
    intros [= ->]. by apply (run_rows_keyed w0 acts Hkeyed).
Qed.

Lemma exec_tasks (w : World) (a : action pyfloat) (product_id : Z) :
  product_id ∈ background_tasks (exec w a) →
  product_id ∈ background_tasks w
  ∨ is_Some (PRODUCTS_DB w !! product_id).
Proof.
  destruct a as [|i|i update|n|seconds|fs]; simpl; auto.
  - destruct (on_startup_frame w) as (_ & _ & _ & ->). auto.
  - destruct (get_product_frame w i) as (_ & _ & ->). auto.
  - rewrite update_product_eq.
    destruct (PRODUCTS_DB w !! i) as [existing|] eqn:Hdb; simpl; [|auto].
    rewrite elem_of_app, list_elem_of_singleton. intros [?| ->]; [auto|].
    right. by rewrite Hdb.
  - rewrite run_task_eq. destruct (background_tasks w !! n) as [j|]; [|auto].
    destruct (invalidate_cache_frame
                (with_tasks (delete n (background_tasks w)) w) j) as (_ & _ & ->).
    simpl. intros ?%list_elem_of_delete_inv. auto.
Qed.

(** X15: an invalidation is queued only for an id the table holds: along
    every run from an empty queue, each queued task names such an id. *)
Theorem queued_ids_are_in_table
    (w0 : World) (acts : list (action pyfloat)) (product_id : Z) :
  background_tasks w0 = [] →
  product_id ∈ background_tasks (run w0 acts) →
  is_Some (PRODUCTS_DB (run w0 acts) !! product_id).
Proof.
  intros Hempty.
  induction acts as [|a acts IH] using rev_ind.
  - simpl. rewrite Hempty. by intros ?%elem_of_nil.
  - rewrite run_snoc. intros [Hold|Hnew]%exec_tasks.
    + apply IH in Hold. apply not_eq_None_Some. rewrite exec_db_None.
      by apply not_eq_None_Some.
    + apply not_eq_None_Some. rewrite exec_db_None. by apply not_eq_None_Some.
Qed.

(** *** Outages and bad entries *)

(** X16: an outage is not remembered.  A [get_product] whose [ping] raises
    answers what the table says and leaves the handle and the server as they
    were, so that the next call, if its [ping] and [get] go through, is served
    from the entry the cache still holds. *)
Theorem cache_used_again_after_outage
    (w : World) (product_id : Z) (s : string) (p : Product pyfloat) :
  redis w = true →
  fault w 0 = true → fault w 1 = false → fault w 2 = false →
  live w (_product_cache_key product_id) = Some s →
  s ≠ "" →
  loads_Product s = Some p →
  (get_product product_id w).1 = from_db w product_id
  ∧ keyspace (get_product product_id w).2 = keyspace w
  ∧ (get_product product_id (get_product product_id w).2).1 = Returns p.
Proof.
  intros Hredis Hping Hget1 Hget2 Hlive Hs Hp.
  assert (cache_hit w product_id = None) as Hmiss.
  { apply cache_hit_None. right. by left. }
  assert (get_product product_id w
          = (from_db w product_id,
             with_trace (trace w ++ [RedisPing; DbGet product_id]) (sent RedisPing w)))
    as Hrun.
  { rewrite get_product_run. cbv zeta. rewrite Hmiss, Hredis, Hping. unfold from_db.
    destruct (PRODUCTS_DB w !! product_id); simpl; by rewrite <- app_assoc. }
  rewrite Hrun. simpl. split_and!; [done..|].
  rewrite get_product_result.
  replace (cache_hit _ _) with (Some p); [done|].
  symmetry. apply cache_hit_Some. split_and!; [done|..].
  - rewrite (fault_after w _ 1); [done|]. simpl. by destruct (faults w).
  - rewrite (fault_after w _ 1); [done|]. simpl. by destruct (faults w).
  - by exists s.
Qed.

(** X17: a bad entry is replaced.  When the server holds, under the key of
    an id the table holds, an empty string or one that does not read back as
    a product, and the handle is there and the [ping], the [get] and the
    [set] go through, [get_product] returns the row of the table and leaves
    its serialised form under the key, due in [CACHE_TTL] seconds. *)
Theorem bad_entry_is_replaced
    (w : World) (product_id : Z) (s : string) (prod : Product pyfloat) :
  redis w = true →
  fault w 0 = false → fault w 1 = false → fault w 2 = false →
  live w (_product_cache_key product_id) = Some s →
  s = "" ∨ loads_Product s = None →
  PRODUCTS_DB w !! product_id = Some prod →
  (get_product product_id w).1 = Returns prod
  ∧ keyspace (get_product product_id w).2 !! _product_cache_key product_id
    = Some (json_dumps prod, now w + CACHE_TTL).
Proof.
  intros Hredis Hping Hget Hset Hlive Hbad Hdb.
  assert (cache_hit w product_id = None) as Hmiss.
  { apply cache_hit_None. do 4 right. destruct Hbad as [-> | Hbad]; [by left|].
    right. by exists s. }
  rewrite (get_product_fill_run w product_id prod) by done.
  cbv zeta. simpl. split; [done|]. apply lookup_insert_eq.
Qed.

End Facts.







(** ** The concrete instance at work *)

Section Codec.

Import Demo.

Lemma cut_append (a b : string) :
  cut a = None → cut (a +:+ "," +:+ b) = Some (a, b).
Proof.
  induction a as [|c a IH]; simpl; [done|].
  destruct (Ascii.eqb c ","%char); [done|].
  destruct (cut a) as [[??]|] eqn:Hcut; [done|]. intros _. by rewrite IH.
Qed.

Lemma cut_digits (d : Decimal.uint) : cut (NilEmpty.string_of_uint d) = None.
Proof. induction d; simpl; by rewrite ?IHd. Qed.

Lemma cut_str (n : Z) : cut (str n) = None.
Proof.
  unfold str, NilZero.string_of_int, NilZero.string_of_uint.
  destruct (Z.to_int n) as [d|d]; destruct d; simpl; by rewrite ?cut_digits.
Qed.

(** The codec of the instance reads back what it wrote. *)
Lemma loads_dumps (p : Product Z) : loads (dumps p) = Some p.
Proof.
  destruct p as [i n c]. unfold loads, dumps. cbn [id name price].
  rewrite (cut_append (str i)) by apply cut_str. cbn [mbind option_bind].
  rewrite (cut_append (str c)) by apply cut_str. cbn [mbind option_bind].
  by rewrite !int_str.
Qed.

End Codec.

Import Demo.

Example started_world :
  redis started = true ∧ keyspace started = ∅ ∧ PRODUCTS_DB started = PRODUCTS_DB_0.
Proof. by vm_compute. Qed.

(** The first scenario of the service: a fetch of product 1 over an empty
    cache returns the row and caches it for 60 seconds; a second fetch
    finds it there. *)
Example fetch_then_hit :
  (fetch 1 started).1 = Returns (mkProduct 1 "Laptop" 1000)
  ∧ keyspace (fetch 1 started).2 !! "product:1" = Some ("1,1000,Laptop", 60)
  ∧ emitted (fetch 1 started).2 (fetch 1 (fetch 1 started).2).2
    = [RedisPing; RedisGet "product:1"].
Proof. by vm_compute. Qed.

(** The second scenario: the price of product 2 changes, and once the
    queued task has run the key is gone and a fetch shows the new price. *)
Example update_then_fetch :
  let w := go started [Fetch 2; Update 2 (mkProductUpdate None (Some 550)); RunTask 0] in
  keyspace w !! "product:2" = None
  ∧ (fetch 2 w).1 = Returns (mkProduct 2 "Smartphone" 550).
Proof. by vm_compute. Qed.

(** C1 fails as stated: after a fetch and an update of product 1, and
    before the invalidation runs, the table holds the new price while
    [get_product] still answers with the old one; without the cache the
    same world answers with the new one. *)
Lemma stale_fetch_counterexample :
  PRODUCTS_DB stale !! 1 = Some (mkProduct 1 "Laptop" 1200)
  ∧ (fetch 1 stale).1 = Returns (mkProduct 1 "Laptop" 1000)
  ∧ (fetch 1 (with_redis false stale)).1 = Returns (mkProduct 1 "Laptop" 1200)
  ∧ ¬ fetch_is_current stale 1.
Proof.
  split_and!; [by vm_compute..|].
  intros Hcur. specialize (Hcur (mkProduct 1 "Laptop" 1200)).
  assert ((fetch 1 stale).1 = Returns (mkProduct 1 "Laptop" 1200)) as Heq.
  { apply Hcur. by vm_compute. }
  vm_compute in Heq. discriminate.
Qed.

Lemma fetch_present_id_witness :
  PRODUCTS_DB (with_redis false stale) !! 1 = Some (mkProduct 1 "Laptop" 1200)
  ∧ (cache_miss (with_redis false stale) 1 →
     (fetch 1 (with_redis false stale)).1 = Returns (mkProduct 1 "Laptop" 1200))
  ∧ (∀ p, cache_hit (with_redis false stale) 1 = Some p →
          (fetch 1 (with_redis false stale)).1 = Returns p).
Proof.
  split; [by vm_compute|].
  apply (fetch_present_id (with_redis false stale) 1). by vm_compute.
Defined.

(** C2 fails as stated: over a server that holds an entry under the key of
    an id the table never had, [get_product] returns that entry. *)
Lemma haunted_fetch_counterexample :
  PRODUCTS_DB haunted !! 99 = None
  ∧ (fetch 99 haunted).1 = Returns (mkProduct 99 "Ghost" 1)
  ∧ ¬ fetch_absent_is_404 haunted 99.
Proof.
  split_and!; [by vm_compute..|].
  intros Habs.
  assert ((fetch 99 haunted).1 = Raises (HTTPException 404)) as Heq.
  { apply Habs. by vm_compute. }
  vm_compute in Heq. discriminate.
Qed.

Lemma fetch_absent_id_witness :
  PRODUCTS_DB started !! 99 = None
  ∧ cache_miss started 99
  ∧ (fetch 99 started).1 = Raises (HTTPException 404)
  ∧ keyspace (boot PRODUCTS_DB_0) = ∅
  ∧ (fetch 99 (go (boot PRODUCTS_DB_0) [Startup; Fetch 1; Fetch 99])).1
    = Raises (HTTPException 404).
Proof.
  assert (PRODUCTS_DB started !! 99 = None) as Hdb by by vm_compute.
  assert (cache_miss started 99) as Hmiss.
  { do 3 right. left. by vm_compute. }
  split_and!; [done|done| |done|].
  - by apply (proj1 (fetch_absent_id (pyfloat:=Z)) started 99).
  - apply (proj2 (fetch_absent_id (pyfloat:=Z)) (boot PRODUCTS_DB_0)
             [Startup; Fetch 1; Fetch 99] 99); by vm_compute.
Defined.

Lemma update_merges_and_stores_witness :
  PRODUCTS_DB started !! 2 = Some (mkProduct 2 "Smartphone" 500)
  ∧ ∃ updated,
      (update 2 (mkProductUpdate None (Some 550)) started).1 = Returns updated
      ∧ PRODUCTS_DB (update 2 (mkProductUpdate None (Some 550)) started).2
        = <[2 := updated]> (PRODUCTS_DB started)
      ∧ PRODUCTS_DB (update 2 (mkProductUpdate None (Some 550)) started).2 !! 2
        = Some updated
      ∧ id updated = 2
      ∧ name updated = "Smartphone"
      ∧ price updated = 550.
Proof.
  split; [by vm_compute|].
  apply (update_merges_and_stores started 2 (mkProductUpdate None (Some 550))
           (mkProduct 2 "Smartphone" 500)).
  by vm_compute.
Defined.

Lemma cache_failures_absorbed_witness :
  cache_failure garbled 1
  ∧ (fetch 1 garbled).1 = (fetch 1 (with_redis false garbled)).1
  ∧ (fetch 1 garbled).1 = Returns (mkProduct 1 "Laptop" 1000)
  ∧ fault (with_faults [false; false; true] started) 2 = true
  ∧ keyspace (fetch 1 (with_faults [false; false; true] started)).2 = ∅.
Proof.
  assert (cache_failure garbled 1) as Hfail.
  { by apply (payload_unreadable garbled 1 "not a product"); vm_compute. }
  pose proof cache_failures_absorbed (pyfloat:=Z) as (_ & Hsame & Hset & _).
  destruct (Hsame garbled 1 Hfail) as [H1 H2].
  split_and!; [done|done| |done|].
  - unfold fetch. rewrite H2. by vm_compute.
  - unfold fetch. by rewrite (Hset (with_faults [false; false; true] started) 1).
Defined.

Lemma cache_hit_leaves_table_alone_witness :
  redis stale = true ∧ fault stale 0 = false ∧ fault stale 1 = false
  ∧ live stale (_product_cache_key 1) = Some "1,1000,Laptop"
  ∧ "1,1000,Laptop" ≠ ""
  ∧ loads "1,1000,Laptop" = Some (mkProduct 1 "Laptop" 1000)
  ∧ (fetch 1 stale).1 = Returns (mkProduct 1 "Laptop" 1000)
  ∧ PRODUCTS_DB (fetch 1 stale).2 = PRODUCTS_DB stale
  ∧ emitted stale (fetch 1 stale).2 = [RedisPing; RedisGet (_product_cache_key 1)]
  ∧ Forall (λ e, is_db_access e = false) (emitted stale (fetch 1 stale).2).
Proof.
  split_and!; [by vm_compute..| | | |];
    by apply (cache_hit_leaves_table_alone stale 1 "1,1000,Laptop"
                (mkProduct 1 "Laptop" 1000)); vm_compute.
Defined.

Lemma empty_update_still_invalidates_witness :
  PRODUCTS_DB started !! 3 = Some (mkProduct 3 "Headphones" 100)
  ∧ PRODUCTS_DB (update 3 (mkProductUpdate None None) started).2 !! 3
    = Some (mkProduct 3 "Headphones" 100)
  ∧ PRODUCTS_DB (update 3 (mkProductUpdate None None) started).2 = PRODUCTS_DB started
  ∧ background_tasks (update 3 (mkProductUpdate None None) started).2
    = background_tasks started ++ [3].
Proof.
  assert (PRODUCTS_DB started !! 3 = Some (mkProduct 3 "Headphones" 100)) as Hdb
    by by vm_compute.
  split; [done|].
  by destruct (empty_update_still_invalidates started 3 _ Hdb) as (? & ? & ? & _).
Defined.

Lemma cache_key_and_ttl_witness :
  RedisSet "product:1" "1,1000,Laptop" 60 ∈ emitted started (fetch 1 started).2
  ∧ _product_cache_key 1 = "product:1"
  ∧ (∀ key, redis_key (RedisSet (pyfloat:=Z) "product:1" "1,1000,Laptop" 60) = Some key →
            key = "product:" +:+ str 1)
  ∧ (∀ ex, redis_ex (RedisSet (pyfloat:=Z) "product:1" "1,1000,Laptop" 60) = Some ex →
           ex = 60).
Proof.
  assert (RedisSet "product:1" "1,1000,Laptop" 60 ∈ emitted started (fetch 1 started).2)
    as Hin.
  { replace (emitted started (fetch 1 started).2)
      with [RedisPing (pyfloat:=Z); RedisGet "product:1"; DbGet 1;
            RedisSet "product:1" "1,1000,Laptop" 60] by by vm_compute.
    rewrite !elem_of_cons. auto. }
  destruct (cache_key_and_ttl started 1) as (Hkey & _ & Hev & _).
  split_and!; [done|done|by apply (Hev _ Hin)..].
Defined.

Lemma fetch_returns_a_stored_row_witness :
  (∀ prod, loads (dumps prod) = Some prod)
  ∧ keyspace (boot PRODUCTS_DB_0) = ∅
  ∧ (fetch 1 (go (boot PRODUCTS_DB_0)
       [Startup; Fetch 1; Update 1 (mkProductUpdate None (Some 1200))])).1
    = Returns (mkProduct 1 "Laptop" 1000)
  ∧ ∃ pre post,
      [Startup; Fetch 1; Update 1 (mkProductUpdate None (Some 1200))] = pre ++ post
      ∧ PRODUCTS_DB (go (boot PRODUCTS_DB_0) pre) !! 1
        = Some (mkProduct 1 "Laptop" 1000).
Proof.
  split_and!; [apply loads_dumps|by vm_compute..|].
  apply (fetch_returns_a_stored_row (boot PRODUCTS_DB_0)
           [Startup; Fetch 1; Update 1 (mkProductUpdate None (Some 1200))] 1);
    [apply loads_dumps|by vm_compute..].
Defined.

Lemma update_touches_one_row_witness :
  (1 : Z) ≠ 2
  ∧ PRODUCTS_DB (update 2 (mkProductUpdate (Some "Phone") None) started).2 !! 1
    = PRODUCTS_DB started !! 1.
Proof.
  split; [done|].
  by apply (update_touches_one_row started 2 1 (mkProductUpdate (Some "Phone") None)).
Defined.

Lemma update_absent_changes_nothing_witness :
  PRODUCTS_DB started !! 7 = None
  ∧ (update 7 (mkProductUpdate (Some "Seven") None) started).1
    = Raises (HTTPException 404)
  ∧ PRODUCTS_DB (update 7 (mkProductUpdate (Some "Seven") None) started).2
    = PRODUCTS_DB started
  ∧ background_tasks (update 7 (mkProductUpdate (Some "Seven") None) started).2
    = background_tasks started
  ∧ keyspace (update 7 (mkProductUpdate (Some "Seven") None) started).2
    = keyspace started
  ∧ emitted started (update 7 (mkProductUpdate (Some "Seven") None) started).2
    = [DbGet 7].
Proof.
  split; [by vm_compute|].
  apply (update_absent_changes_nothing started 7 (mkProductUpdate (Some "Seven") None)).
  by vm_compute.
Defined.

(** ** More of the concrete instance *)

Lemma dumps_nonempty (p : Product Z) : dumps p ≠ "".
Proof. unfold dumps. by destruct (str (id p)). Qed.

Lemma PRODUCTS_DB_0_keyed : rows_keyed PRODUCTS_DB_0.
Proof.
  intros k row Hrow. unfold PRODUCTS_DB_0 in Hrow.
  repeat (apply lookup_insert_Some in Hrow as [(<- & <-)|(_ & Hrow)]; [done|]).
  by rewrite lookup_empty in Hrow.
Qed.

Lemma distinct_ids_distinct_keys_witness :
  (1 : Z) ≠ 2 ∧ _product_cache_key 1 ≠ _product_cache_key 2.
Proof. split; [done|]. by apply (distinct_ids_distinct_keys 1 2). Defined.

Lemma fetch_writes_cache_on_filled_miss_only_witness :
  PRODUCTS_DB started !! 9 = None
  ∧ keyspace (fetch 9 started).2 = keyspace started
  ∧ PRODUCTS_DB started !! 1 = Some (mkProduct 1 "Laptop" 1000)
  ∧ keyspace (fetch 1 started).2
    = <[_product_cache_key 1 := ("1,1000,Laptop", now started + CACHE_TTL)]>
        (keyspace started).
Proof.
  destruct (fetch_writes_cache_on_filled_miss_only started 9) as (Hsame & _).
  destruct (fetch_writes_cache_on_filled_miss_only started 1) as (_ & Hfill & _).
  split_and!; [by vm_compute| |by vm_compute|].
  - apply Hsame. left. by vm_compute.
  - by apply (Hfill (mkProduct 1 "Laptop" 1000)); vm_compute.
Defined.

Lemma invalidation_touches_one_key_witness :
  redis stale = true ∧ fault stale 0 = false ∧ fault stale 1 = false
  ∧ keyspace (invalidate_cache 1 stale).2 !! _product_cache_key 1 = None
  ∧ PRODUCTS_DB (invalidate_cache 1 stale).2 = PRODUCTS_DB stale.
Proof.
  destruct (invalidation_touches_one_key stale 1) as (Hdb & _ & _ & _ & _ & Hgone).
  split_and!; [by vm_compute..| |done].
  by apply Hgone; vm_compute.
Defined.


Lemma fetch_twice_hits_witness :
  (∀ prod, loads (dumps prod) = Some prod)
  ∧ (∀ prod, dumps prod ≠ "")
  ∧ redis started = true
  ∧ (∀ n, (n < 5)%nat → fault started n = false)
  ∧ (fetch 1 started).1 = Returns (mkProduct 1 "Laptop" 1000)
  ∧ (fetch 1 (fetch 1 started).2).1 = Returns (mkProduct 1 "Laptop" 1000)
  ∧ emitted (fetch 1 started).2 (fetch 1 (fetch 1 started).2).2
    = [RedisPing; RedisGet (_product_cache_key 1)].
Proof.
  assert (∀ n, (n < 5)%nat → fault started n = false) as Hok.
  { intros n _. unfold fault. replace (faults started) with (@nil bool) by by vm_compute.
    by rewrite lookup_nil. }
  split_and!; [apply loads_dumps|apply dumps_nonempty|by vm_compute|done
              |by vm_compute|..];
    by apply (fetch_twice_hits (pyfloat:=Z) started 1 (mkProduct 1 "Laptop" 1000));
      [apply loads_dumps|apply dumps_nonempty|vm_compute|..|vm_compute].
Defined.

Lemma updates_compose_witness :
  let first := mkProductUpdate (Some "Phone") (Some 450) in
  let second := mkProductUpdate None (Some 550) in
  PRODUCTS_DB started !! 2 = Some (mkProduct 2 "Smartphone" 500)
  ∧ (update 2 second (update 2 first started).2).1
    = Returns (mkProduct 2 "Phone" 550)
  ∧ PRODUCTS_DB (update 2 second (update 2 first started).2).2
    = PRODUCTS_DB (update 2 (mkProductUpdate (Some "Phone") (Some 550)) started).2.
Proof.
  cbv zeta.
  destruct (updates_compose started 2 (mkProductUpdate (Some "Phone") (Some 450))
              (mkProductUpdate None (Some 550)) (mkProduct 2 "Smartphone" 500))
    as (Hres & Hdb & _); [by vm_compute|].
  split_and!; [by vm_compute|apply Hres|apply Hdb].
Defined.

Lemma updates_commute_witness :
  (1 : Z) ≠ 2
  ∧ PRODUCTS_DB (update 2 (mkProductUpdate None (Some 550))
                   (update 1 (mkProductUpdate (Some "Notebook") None) started).2).2
    = PRODUCTS_DB (update 1 (mkProductUpdate (Some "Notebook") None)
                     (update 2 (mkProductUpdate None (Some 550)) started).2).2.
Proof.
  split; [done|].
  by apply (updates_commute started 1 2 (mkProductUpdate (Some "Notebook") None)
              (mkProductUpdate None (Some 550))).
Defined.

Lemma handle_set_at_startup_only_witness :
  (@Startup Z ∉ [Fetch 1; Network [true]; Fetch 2; RunTask 0; Tick 5])
  ∧ redis (go started [Fetch 1; Network [true]; Fetch 2; RunTask 0; Tick 5])
    = redis started.
Proof.
  assert (@Startup Z ∉ [Fetch 1; Network [true]; Fetch 2; RunTask 0; Tick 5]) as Hno.
  { rewrite !not_elem_of_cons. split_and!; try done. apply not_elem_of_nil. }
  split; [done|]. by apply (handle_set_at_startup_only (pyfloat:=Z) started).
Defined.

Lemma no_handle_no_redis_witness :
  let acts := [Fetch 1; Update 1 (mkProductUpdate None (Some 1200)); RunTask 0] in
  redis (boot PRODUCTS_DB_0) = false
  ∧ (@Startup Z ∉ acts)
  ∧ keyspace (go (boot PRODUCTS_DB_0) acts) = ∅
  ∧ emitted (boot PRODUCTS_DB_0) (go (boot PRODUCTS_DB_0) acts)
    = [DbGet 1; DbGet 1; DbPut 1 (mkProduct 1 "Laptop" 1200); AddTask 1]
  ∧ (fetch 1 (go (boot PRODUCTS_DB_0) acts)).1 = Returns (mkProduct 1 "Laptop" 1200).
Proof.
  cbv zeta.
  assert (@Startup Z ∉ [Fetch 1; Update 1 (mkProductUpdate None (Some 1200)); RunTask 0])
    as Hno.
  { rewrite !not_elem_of_cons. split_and!; try done. apply not_elem_of_nil. }
  destruct (no_handle_no_redis (pyfloat:=Z) (boot PRODUCTS_DB_0) _ 1 eq_refl Hno)
    as (Hks & _ & Hres).
  split_and!; [done|done|apply Hks|by vm_compute|].
  unfold fetch, go. rewrite Hres. by vm_compute.
Defined.

Lemma fresh_after_ttl_witness :
  let acts := [Startup; Fetch 1; Update 1 (mkProductUpdate None (Some 1200))] in
  keyspace (boot PRODUCTS_DB_0) = ∅
  ∧ CACHE_TTL ≤ Z.of_nat 60
  ∧ (fetch 1 (go (boot PRODUCTS_DB_0) acts)).1 = Returns (mkProduct 1 "Laptop" 1000)
  ∧ (fetch 1 (go (boot PRODUCTS_DB_0) (acts ++ [Tick 60]))).1
    = Returns (mkProduct 1 "Laptop" 1200).
Proof.
  cbv zeta. split_and!; [done|by vm_compute|by vm_compute|].
  pose proof (fresh_after_ttl (pyfloat:=Z) (boot PRODUCTS_DB_0)
                [Startup; Fetch 1; Update 1 (mkProductUpdate None (Some 1200))]
                60 1 eq_refl) as Hfresh.
  unfold fetch, go. rewrite run_snoc, Hfresh; by vm_compute.
Defined.

Lemma fetched_product_has_the_id_witness :
  let acts := [Startup; Fetch 3; Update 3 (mkProductUpdate (Some "Earbuds") None)] in
  rows_keyed PRODUCTS_DB_0
  ∧ (∀ prod, loads (dumps prod) = Some prod)
  ∧ keyspace (boot PRODUCTS_DB_0) = ∅
  ∧ (fetch 3 (go (boot PRODUCTS_DB_0) acts)).1
    = Returns (mkProduct 3 "Headphones" 100)
  ∧ id (mkProduct 3 "Headphones" (100 : Z)) = 3.
Proof.
  cbv zeta.
  split_and!; [apply PRODUCTS_DB_0_keyed|apply loads_dumps|done|by vm_compute|].
  apply (fetched_product_has_the_id (pyfloat:=Z) (boot PRODUCTS_DB_0)
           [Startup; Fetch 3; Update 3 (mkProductUpdate (Some "Earbuds") None)]);
    [apply PRODUCTS_DB_0_keyed|apply loads_dumps|done|by vm_compute].
Defined.

Lemma queued_ids_are_in_table_witness :
  let acts := [Startup; Update 2 (mkProductUpdate None (Some 550)); Update 8 (mkProductUpdate None (Some 1))] in
  background_tasks (boot PRODUCTS_DB_0) = []
  ∧ background_tasks (go (boot PRODUCTS_DB_0) acts) = [2]
  ∧ is_Some (PRODUCTS_DB (go (boot PRODUCTS_DB_0) acts) !! 2).
Proof.
  cbv zeta. split_and!; [done|by vm_compute|].
  apply (queued_ids_are_in_table (pyfloat:=Z) (boot PRODUCTS_DB_0)); [done|].
  replace (background_tasks _) with [2 : Z] by by vm_compute.
  apply list_elem_of_singleton. done.
Defined.

Lemma cache_used_again_after_outage_witness :
  let w := with_faults [true] stale in
  redis w = true
  ∧ fault w 0 = true ∧ fault w 1 = false ∧ fault w 2 = false
  ∧ live w (_product_cache_key 1) = Some "1,1000,Laptop"
  ∧ (fetch 1 w).1 = Returns (mkProduct 1 "Laptop" 1200)
  ∧ (fetch 1 (fetch 1 w).2).1 = Returns (mkProduct 1 "Laptop" 1000).
Proof.
  cbv zeta.
  destruct (cache_used_again_after_outage (pyfloat:=Z) (with_faults [true] stale) 1
              "1,1000,Laptop" (mkProduct 1 "Laptop" 1000))
    as (Hfirst & _ & Hsecond); [by vm_compute..|].
  split_and!; [by vm_compute..| |apply Hsecond].
  unfold fetch. rewrite Hfirst. by vm_compute.
Defined.

Lemma bad_entry_is_replaced_witness :
  redis garbled = true
  ∧ fault garbled 0 = false ∧ fault garbled 1 = false ∧ fault garbled 2 = false
  ∧ live garbled (_product_cache_key 1) = Some "not a product"
  ∧ loads "not a product" = None
  ∧ PRODUCTS_DB garbled !! 1 = Some (mkProduct 1 "Laptop" 1000)
  ∧ (fetch 1 garbled).1 = Returns (mkProduct 1 "Laptop" 1000)
  ∧ keyspace (fetch 1 garbled).2 !! _product_cache_key 1
    = Some ("1,1000,Laptop", now garbled + CACHE_TTL).
Proof.
  destruct (bad_entry_is_replaced (pyfloat:=Z) garbled 1 "not a product"
              (mkProduct 1 "Laptop" 1000))
    as (Hres & Hks); [by vm_compute..|right; by vm_compute|by vm_compute|].
  split_and!; [by vm_compute..|apply Hres|apply Hks].
Defined.
